(** * mcp-data-handles: handle stores and the DataFrame tools built on them

    The repository has three tool servers:
    - [mcp_handles_server/df_abstractions.py]: DataFrame tools over handles
      persisted in an SQLite table (module [Server] below);
    - [mcp_handles/df_abstractions.py]: the same idea over an in-memory
      dictionary of DataFrame objects (module [InMemory]);
    - [mcp_handles/pandas_generic.py]: a generic tool that runs caller code
      over handles, and a materializer (module [Generic]).

    pandas is a library the tools call; the part of it they use is modelled
    in module [Pandas]. *)

From stdpp Require Import base option list strings gmap pretty.

(** ** Python exceptions

    An exception: the name of its class, its text, and whether the class
    derives from [Exception]. [SystemExit], [KeyboardInterrupt] and
    [GeneratorExit] derive from [BaseException] only: [except Exception]
    does not catch them. *)
Record exn := mkExn { exn_type : string; exn_str : string; exn_ordinary : bool }.

Global Instance exn_eq_dec : EqDecision exn.
Proof. solve_decision. Defined.

(** an exception of a class that derives from [Exception] *)
Definition Exception (type text : string) : exn := mkExn type text true.

(** What pandas raises in the calls that are left to it: the class and the
    text of an exception that derives from [Exception]. *)
Record library_error := LibraryError { error_type : string; error_str : string }.

Definition raised (e : library_error) : exn := Exception (error_type e) (error_str e).

(** * The part of pandas the tools use *)
Module Pandas.

(** A cell: an integer, a float (by the text Python prints for it, such as
    [1200.0]), a text, a boolean or the missing-value marker. *)
Inductive value :=
| VInt (z : Z)
| VFloat (repr : string)
| VStr (s : string)
| VBool (b : bool)
| NaN.

Global Instance value_eq_dec : EqDecision value.
Proof. solve_decision. Defined.

(** A DataFrame: the column labels in order and the rows in order, each row
    holding one cell per column. Row labels (the index) play no part in the
    tools and are left out. *)
Record DataFrame := mkDF { columns : list string; rows : list (list value) }.

Global Instance DataFrame_eq_dec : EqDecision DataFrame.
Proof. solve_decision. Defined.

(** Every row has one cell per column. *)
Definition wf (df : DataFrame) : Prop :=
  Forall (λ r, length r = length (columns df)) (rows df).

Global Instance wf_dec df : Decision (wf df).
Proof. unfold wf. apply _. Defined.

(** [len(df)] *)
Definition len (df : DataFrame) : Z := Z.of_nat (length (rows df)).

(** [col in df], [col in df.columns] *)
Definition has_column (df : DataFrame) (col : string) : bool :=
  bool_decide (col ∈ columns df).

(** the positions of a column label, left to right: pandas lets several
    columns carry one label *)
Fixpoint positions_from (i : nat) (cols : list string) (col : string) : list nat :=
  match cols with
  | [] => []
  | c :: cols =>
      if decide (c = col) then i :: positions_from (S i) cols col
      else positions_from (S i) cols col
  end.

Definition positions (cols : list string) (col : string) : list nat :=
  positions_from 0 cols col.

(** the cell of a row at a position *)
Definition cell (r : list value) (i : nat) : value := default NaN (r !! i).

(** [df[col]] as a column: the cells under the label, top to bottom.
    [None] when no column carries the label ([df[col]] raises [KeyError])
    and when several do ([df[col]] is then a DataFrame, not a column). *)
Definition getitem (df : DataFrame) (col : string) : option (list value) :=
  match positions (columns df) col with
  | [i] => Some ((λ r, cell r i) <$> rows df)
  | _ => None
  end.

(** [df.copy()]: cells are immutable values here, so a copy is the same
    table; where object identity matters (module [Memory]) a copy is a new
    object. *)
Definition copy (df : DataFrame) : DataFrame := df.

(** [str(v)], as [Series.astype(str)] applies it to each cell *)
Definition str (v : value) : string :=
  match v with
  | VInt z => pretty z
  | VFloat repr => repr
  | VStr s => s
  | VBool true => "True"
  | VBool false => "False"
  | NaN => "nan"
  end.

(** [a.astype(str) + sep + b.astype(str)] *)
Definition str_concat (a : list value) (sep : string) (b : list value) : list value :=
  zip_with (λ x y, VStr (str x +:+ sep +:+ str y)) a b.

(** [df[col] = vals]: appends a new last column when no column carries the
    label, and otherwise overwrites every column that carries it. *)
Definition set_cells (ps : list nat) (v : value) (r : list value) : list value :=
  foldr (λ i r, <[i := v]> r) r ps.

Definition setitem (df : DataFrame) (col : string) (vals : list value) : DataFrame :=
  match positions (columns df) col with
  | [] => mkDF (columns df ++ [col]) (zip_with (λ r v, r ++ [v]) (rows df) vals)
  | ps => mkDF (columns df) (zip_with (λ r v, set_cells ps v r) (rows df) vals)
  end.

(** [df[cols]]: for each listed label, in the listed order, every column
    that carries it; [None] stands for the [KeyError] of a missing label. *)
Definition select (df : DataFrame) (cols : list string) : option DataFrame :=
  if bool_decide (Forall (λ c, c ∈ columns df) cols) then
    Some (mkDF (cols ≫= λ c, (λ _, c) <$> positions (columns df) c)
               ((λ r, cell r <$> (cols ≫= positions (columns df))) <$> rows df))
  else None.

(** [df.drop(columns=cols, errors='ignore')] *)
Definition keep_mask (df : DataFrame) (cols : list string) : list bool :=
  (λ c, bool_decide (c ∉ cols)) <$> columns df.

Fixpoint mask {A} (m : list bool) (l : list A) : list A :=
  match m, l with
  | b :: m, x :: l => if b then x :: mask m l else mask m l
  | _, _ => []
  end.

Definition drop (df : DataFrame) (cols : list string) : DataFrame :=
  let m := keep_mask df cols in
  mkDF (mask m (columns df)) (mask m <$> rows df).

(** [df.drop_duplicates()]: a row equal to an earlier one is removed, the
    first occurrence stays. [seen] holds the rows met so far. A table
    without columns or without rows ([df.empty]) is returned as it is. *)
Fixpoint first_occurrences (seen : list (list value)) (l : list (list value))
  : list (list value) :=
  match l with
  | [] => []
  | r :: l =>
      if decide (r ∈ seen) then first_occurrences seen l
      else r :: first_occurrences (r :: seen) l
  end.

Definition is_empty (df : DataFrame) : bool :=
  bool_decide (columns df = []) || bool_decide (rows df = []).

Definition drop_duplicates (df : DataFrame) : DataFrame :=
  if is_empty df then copy df
  else mkDF (columns df) (first_occurrences [] (rows df)).

(** [df.head(n)] and [df.tail(n)] ([iloc[:n]] and [iloc[-n:]]) *)
Definition head (df : DataFrame) (n : Z) : DataFrame :=
  if decide (0 ≤ n)%Z then mkDF (columns df) (take (Z.to_nat n) (rows df))
  else mkDF (columns df) (take (length (rows df) - Z.to_nat (- n)) (rows df)).

Definition tail (df : DataFrame) (n : Z) : DataFrame :=
  if decide (0 < n)%Z then
    mkDF (columns df) (List.skipn (length (rows df) - Z.to_nat n) (rows df))
  else if decide (n = 0)%Z then mkDF (columns df) []
  else mkDF (columns df) (List.skipn (Z.to_nat (- n)) (rows df)).

(** kinds of cells *)
Definition is_int (v : value) : bool := match v with VInt _ => true | _ => false end.
Definition is_float (v : value) : bool := match v with VFloat _ => true | _ => false end.
Definition is_str (v : value) : bool := match v with VStr _ => true | _ => false end.
Definition is_num (v : value) : bool :=
  match v with VInt _ | VFloat _ | NaN => true | _ => false end.

(** [[col for col in names if col not in labels]] *)
Definition missing_from_cols (labels names : list string) : list string :=
  filter (λ col, col ∉ labels) names.

(** ** [pd.merge(left, right, on=on, how=how)] *)

(** The join kinds the tools pass on; any other text makes [pd.merge]
    raise. *)
Inductive join_kind := Inner | Left | Right | Outer.

Definition parse_how (how : string) : option join_kind :=
  if decide (how = "inner") then Some Inner
  else if decide (how = "left") then Some Left
  else if decide (how = "right") then Some Right
  else if decide (how = "outer") then Some Outer
  else None.

(** pandas refuses to compare a key column of numbers with a key column of
    text (when both have rows). *)
Definition numeric_keys (k : list value) : bool := forallb is_num k.
Definition text_keys (k : list value) : bool :=
  forallb (λ v, is_str v || bool_decide (v = NaN)) k && existsb is_str k.
Definition incompatible_keys (lk rk : list value) : bool :=
  bool_decide (lk ≠ []) && bool_decide (rk ≠ []) &&
  ((numeric_keys lk && text_keys rk) || (text_keys lk && numeric_keys rk)).

(** a key column with integers against one with floats: pandas compares
    them as numbers *)
Definition mixed_keys (lk rk : list value) : bool :=
  (existsb is_int lk && existsb is_float rk) ||
  (existsb is_float lk && existsb is_int rk).

(** A column other than the key that both sides have gets the side's
    suffix. *)
Definition suffixed (others : list string) (on suffix c : string) : string :=
  if bool_decide (c ≠ on ∧ c ∈ others) then c +:+ suffix else c.

Definition merged_columns (left right : DataFrame) (on : string) (j : nat)
  : list string :=
  (suffixed (columns right) on "_x" <$> columns left) ++
  (suffixed (columns left) on "_y" <$> delete j (columns right)).

(** [labels.duplicated()]: whether a label repeats an earlier one *)
Definition duplicated (labels : list string) : list bool :=
  imap (λ i c, bool_decide (c ∈ take i labels)) labels.

(** the suffixes make a label of one side repeat an earlier label of that
    side, which did not repeat one before: [pd.merge] raises *)
Definition suffix_repeats (old new : list string) : bool :=
  existsb id (zip_with (λ was now, now && negb was) (duplicated old) (duplicated new)).

Definition suffixes_clash (left right : DataFrame) (on : string) (j : nat) : bool :=
  suffix_repeats (columns left) (suffixed (columns right) on "_x" <$> columns left) ||
  suffix_repeats (delete j (columns right))
    (suffixed (columns left) on "_y" <$> delete j (columns right)).

(** the suffixes make a label of one side equal to a label that the other
    side keeps *)
Definition suffix_meets_other_side (left right : DataFrame) (on : string) (j : nat)
  : bool :=
  existsb (λ c, bool_decide (c ∈ delete j (columns right) ∧ c ∉ columns left))
    (suffixed (columns right) on "_x" <$> columns left) ||
  existsb (λ c, bool_decide (c ∈ columns left ∧ c ∉ delete j (columns right)))
    (suffixed (columns left) on "_y" <$> delete j (columns right)).

(** rows of [rs] whose cell at [j] equals [k] *)
Definition matching (k : value) (j : nat) (rs : list (list value))
  : list (list value) :=
  filter (λ r, cell r j = k) rs.

(** whether some row of [ls] has no match in [rs] *)
Definition some_unmatched (i j : nat) (ls rs : list (list value)) : bool :=
  existsb (λ l, bool_decide (matching (cell l i) j rs = [])) ls.

(** An integer column that has to hold the missing-value marker becomes a
    float column: [1200] becomes [1200.0]. A float holds an integer up to
    2^53 exactly, and Python prints it with [.0]; [big] gives the text of
    the float nearest to an integer beyond. *)
Definition to_float (big : Z → string) (v : value) : value :=
  match v with
  | VInt z =>
      VFloat (if decide (Z.abs z ≤ 2 ^ 53)%Z then pretty z +:+ ".0" else big z)
  | _ => v
  end.

(** the cells of a row as floats, where [m] marks the column *)
Fixpoint upcast (big : Z → string) (m : list bool) (r : list value) : list value :=
  match m, r with
  | b :: m, v :: r => (if b then to_float big v else v) :: upcast big m r
  | _, _ => r
  end.

(** the columns of integers *)
Definition int_columns (df : DataFrame) : list bool :=
  (λ i, forallb (λ r, is_int (cell r i)) (rows df)) <$> seq 0 (length (columns df)).

(** inner: for each left row in order, its matches on the right in order *)
Definition inner_rows (i j : nat) (ls rs : list (list value)) : list (list value) :=
  l ← ls; (λ r, l ++ delete j r) <$> matching (cell l i) j rs.

(** left: as inner, and a left row without a match is kept, with the
    missing-value marker in every column of the right side; [up] turns the
    cells of the right side that become floats *)
Definition left_rows (i j nr : nat) (up : list value → list value)
    (ls rs : list (list value)) : list (list value) :=
  l ← ls;
  match matching (cell l i) j rs with
  | [] => [l ++ replicate (nr - 1) NaN]
  | ms => (λ r, l ++ up (delete j r)) <$> ms
  end.

(** right: for each right row in order, its matches on the left in order;
    a right row without a match is kept, its key in the key column and the
    missing-value marker in the other columns of the left side; [up] turns
    the cells of the left side that become floats *)
Definition right_rows (i j nl : nat) (up : list value → list value)
    (ls rs : list (list value)) : list (list value) :=
  r ← rs;
  match matching (cell r j) i ls with
  | [] => [<[i := cell r j]> (replicate nl NaN) ++ delete j r]
  | ms => (λ l, up l ++ delete j r) <$> ms
  end.

Section merge.
(** Left to the library: the full outer join, the join of a key column of
    integers with one of floats, and the join whose suffixes make a label of
    one side equal to a label of the other. *)
Variable library : DataFrame → DataFrame → string → join_kind →
                   library_error + DataFrame.
(** [repr(float(z))] for an integer beyond 2^53 *)
Variable big_float : Z → string.

Definition merge (left right : DataFrame) (on how : string) : exn + DataFrame :=
  match parse_how how with
  | None =>
      inl (Exception "ValueError" ("'" +:+ how +:+ "' is not a valid Merge type"))
  | Some kind =>
      match positions (columns left) on, positions (columns right) on with
      | [], _ | _, [] => inl (Exception "KeyError" on)
      | [i], [j] =>
          let ls := rows left in
          let rs := rows right in
          let lk := (λ r, cell r i) <$> ls in
          let rk := (λ r, cell r j) <$> rs in
          if incompatible_keys lk rk
          then inl (Exception "ValueError"
                      ("You are trying to merge on incompatible columns for key '"
                         +:+ on +:+ "'"))
          else if suffixes_clash left right on j
          then inl (Exception "MergeError"
                      "Passing 'suffixes' which cause duplicate columns is not allowed.")
          else
            match kind with
            | Inner =>
                if mixed_keys lk rk || suffix_meets_other_side left right on j
                then sum_map raised id (library left right on kind)
                else inr (mkDF (merged_columns left right on j) (inner_rows i j ls rs))
            | Left =>
                if mixed_keys lk rk || suffix_meets_other_side left right on j
                then sum_map raised id (library left right on kind)
                else
                  let up := if some_unmatched i j ls rs
                            then upcast big_float (delete j (int_columns right))
                            else id in
                  inr (mkDF (merged_columns left right on j)
                         (left_rows i j (length (columns right)) up ls rs))
            | Right =>
                if mixed_keys lk rk || suffix_meets_other_side left right on j
                then sum_map raised id (library left right on kind)
                else
                  let up := if some_unmatched j i rs ls
                            then upcast big_float (<[i := false]> (int_columns left))
                            else id in
                  inr (mkDF (merged_columns left right on j)
                         (right_rows i j (length (columns left)) up ls rs))
            | Outer => sum_map raised id (library left right on kind)
            end
      | _, _ =>
          inl (Exception "ValueError" ("The column label '" +:+ on +:+ "' is not unique."))
      end
  end.
End merge.

End Pandas.

(** * Effects: a state that is threaded through, and Python exceptions *)

Inductive outcome (A : Type) :=
| Return (a : A)
| Raise (e : exn).
Arguments Return {A} a.
Arguments Raise {A} e.

Definition M (S A : Type) : Type := S → outcome A * S.

Global Instance M_ret {S} : MRet (M S) := λ A a s, (Return a, s).
Global Instance M_bind {S} : MBind (M S) := λ A B f m s,
  match m s with
  | (Return a, s') => f a s'
  | (Raise e, s') => (Raise e, s')
  end.

Definition raise {S A} (e : exn) : M S A := λ s, (Raise e, s).

(** read the state *)
Definition gets {S A} (f : S → A) : M S A := λ s, (Return (f s), s).

(** [try: body except Exception as e: handler(e)]: an exception of a class
    that does not derive from [Exception] passes through *)
Definition try_except {S A} (body : M S A) (handler : exn → M S A) : M S A :=
  λ s, match body s with
       | (Return a, s') => (Return a, s')
       | (Raise e, s') => if exn_ordinary e then handler e s' else (Raise e, s')
       end.

(** a call that either raises or gives a value *)
Definition lift_sum {S A} (r : exn + A) : M S A :=
  match r with inl e => raise e | inr a => mret a end.

(** a call left to pandas *)
Definition lift_library {S A} (r : library_error + A) : M S A :=
  match r with inl e => raise (raised e) | inr a => mret a end.

(** an item access that raises [KeyError] when the label is missing *)
Definition lift_key {S A} (label : string) (r : option A) : M S A :=
  match r with None => raise (Exception "KeyError" label) | Some a => mret a end.

(** * What the tools take from their runtime *)

Import Pandas.

Class Runtime := {
  (** the bytes [pickle] writes *)
  blob : Type;
  pickle_dumps : DataFrame → blob;
  pickle_loads : blob → DataFrame;
  (** [str(uuid.uuid4())] at the n-th draw of the process *)
  uuid4 : nat → string;
  (** [df.query(expr)] *)
  df_query : DataFrame → string → library_error + DataFrame;
  (** [df.groupby(group_columns, as_index=False).agg(agg_dict)] *)
  df_groupby_agg : DataFrame → list string → list (string * string) →
                   library_error + DataFrame;
  (** [pd.merge], where the model of it above hands over to pandas *)
  df_merge : DataFrame → DataFrame → string → join_kind → library_error + DataFrame;
  (** [repr(float(z))] for an integer beyond 2^53 *)
  float_repr : Z → string;
  (** [df[new] = df[col1].astype(str) + sep + df[col2].astype(str)] when
      several columns carry the label [col1] or the label [col2]: the table
      after the assignment, or what the statement raises *)
  df_combine_repeated : DataFrame → string → string → string → string →
                        library_error + DataFrame;
  (** [df.dtypes.astype(str).values.tolist()]: the name of the type each
      column carries, which its cells alone do not tell *)
  df_dtypes : DataFrame → list string;
}.

Class RuntimeLaws (R : Runtime) : Prop := {
  (** unpickling what was pickled gives the table back *)
  pickle_roundtrip : ∀ df, pickle_loads (pickle_dumps df) = df;
  (** no two draws give the same token *)
  uuid4_inj : ∀ i j, uuid4 i = uuid4 j → i = j;
}.

(** A runtime to run the tools on: blobs are the tables themselves, the
    n-th token is the decimal numeral of n, queries keep every row,
    aggregation keeps the table, the joins and the assignments left to
    pandas raise, a large integer is printed as a float like a small one,
    every column carries the type [object]. *)
Definition demo_runtime : Runtime := {|
  blob := DataFrame;
  pickle_dumps := id;
  pickle_loads := id;
  uuid4 := λ n, pretty n;
  df_query := λ df _, inr df;
  df_groupby_agg := λ df _ _, inr df;
  df_merge := λ _ _ _ _, inl (LibraryError "NotImplementedError" "left to pandas");
  float_repr := λ z, pretty z +:+ ".0";
  df_combine_repeated :=
    λ _ _ _ _ _, inl (LibraryError "NotImplementedError" "left to pandas");
  df_dtypes := λ df, (λ _, "object") <$> columns df;
|}.

Lemma demo_runtime_laws : RuntimeLaws demo_runtime.
Proof.
  split; [done|].
  intros i j H. by apply (inj pretty).
Qed.

(** * mcp_handles_server/df_abstractions.py *)
Module Server.
Section tools.
Context {R : Runtime}.

(** The SQL statements the module runs on its connection. *)
Inductive statement :=
| INSERT_OR_REPLACE (handle : string) (dataframe : blob)
| COMMIT
| SELECT_dataframe (handle : string)
| SELECT_handles.

(** The process state: the rows of table [handles] (primary key [handle]),
    the statements run so far, and the number of tokens drawn so far. *)
Record world := mkWorld {
  handles : gmap string blob;
  journal : list statement;
  draws : nat;
}.

(** [sample_db] *)
Definition sample_db : list (string * DataFrame) :=
  [ ("users",
     mkDF ["user_id"; "name"; "city"]
       [ [VInt 1; VStr "Alice"; VStr "New York"];
         [VInt 2; VStr "Bob"; VStr "London"];
         [VInt 3; VStr "Charlie"; VStr "Paris"];
         [VInt 4; VStr "David"; VStr "London"];
         [VInt 5; VStr "Eve"; VStr "Tokyo"];
         [VInt 6; VStr "Alice2"; VStr "New York"] ]);
    ("orders",
     mkDF ["order_id"; "user_id"; "product"; "amount"]
       [ [VInt 101; VInt 1; VStr "Laptop"; VInt 1200];
         [VInt 102; VInt 2; VStr "Keyboard"; VInt 75];
         [VInt 103; VInt 1; VStr "Mouse"; VInt 25];
         [VInt 104; VInt 3; VStr "Monitor"; VInt 300];
         [VInt 105; VInt 5; VStr "Webcam"; VInt 50];
         [VInt 106; VInt 2; VStr "Desk"; VInt 250] ]) ].

Definition lookup_table (db : list (string * DataFrame)) (table_name : string)
  : option DataFrame :=
  found ← list_find (λ p, p.1 = table_name) db; Some found.2.2.

(** What a tool returns: both are Python [str]; an error text starts with
    ["Error"], anything else is a handle. *)
Inductive message :=
| Table_not_found (table_name : string)
    (** ["Error: Table '{table_name}' not found."] *)
| Handle_not_found (handle : string)
    (** ["Error: Handle '{handle}' not found."] *)
| Columns_not_found_unnamed
    (** ["Error: Column(s) not found."] *)
| Handles_not_found_unnamed
    (** ["Error: One or both handles not found."] *)
| Join_column_not_found_unnamed
    (** ["Error: Join column not found."] *)
| Columns_not_found (missing_cols : list string)
    (** ["Error: Columns {missing_cols} not found."] *)
| Filtering_error (e : exn)
    (** ["Error in filtering rows: {str(e)}"] *)
| Group_columns_not_found (missing_group_cols : list string)
    (** ["Error: Group columns {missing_group_cols} not found."] *)
| Aggregation_columns_not_found (missing_agg_cols : list string)
    (** ["Error: Aggregation columns {missing_agg_cols} not found."] *)
| Grouping_error (e : exn).
    (** ["Error in grouping: {str(e)}"] *)

Inductive reply :=
| Handle (handle : string)
| Error (m : message).

(** ** The connection *)

Definition execute (st : statement) : M world unit := λ w,
  (Return (),
   mkWorld
     match st with
     | INSERT_OR_REPLACE h b => <[h := b]> (handles w)
     | _ => handles w
     end
     (journal w ++ [st]) (draws w)).

(** [cursor.execute("SELECT dataframe ..."); cursor.fetchone()] *)
Definition fetchone_dataframe (handle : string) : M world (option blob) :=
  execute (SELECT_dataframe handle);; gets (λ w, handles w !! handle).

(** [cursor.execute("SELECT handle FROM handles"); cursor.fetchall()] *)
Definition fetchall_handles : M world (list string) :=
  execute SELECT_handles;; gets (λ w, (map_to_list (handles w)).*1).

(** [str(uuid.uuid4())] *)
Definition new_uuid : M world string := λ w,
  (Return (uuid4 (draws w)), mkWorld (handles w) (journal w) (S (draws w))).

(** ** Helper functions to persist DataFrames *)

Definition load_handle (handle : string) : M world (option DataFrame) :=
  result ← fetchone_dataframe handle;
  match result with
  | Some b => mret (Some (pickle_loads b))
  | None => fetchall_handles;; mret None
  end.

Definition save_handle (handle : string) (df : DataFrame) : M world unit :=
  let df_blob := pickle_dumps df in
  execute (INSERT_OR_REPLACE handle df_blob);;
  execute COMMIT;;
  (* Verify the save worked: both answers only print *)
  verify ← load_handle handle;
  match verify with
  | Some _ => mret ()
  | None => mret ()
  end.

(** ** The tools *)

Definition get_db_tables : list string := sample_db.*1.

Definition query_database (table_name : string) : M world reply :=
  match lookup_table sample_db table_name with
  | Some df =>
      handle ← new_uuid;
      save_handle handle (copy df);;
      mret (Handle handle)
  | None => mret (Error (Table_not_found table_name))
  end.

Definition combine_columns (handle col1_name col2_name new_col_name sep : string)
  : M world reply :=
  df ← load_handle handle;
  match df with
  | None => mret (Error (Handle_not_found handle))
  | Some df =>
      if negb (has_column df col1_name) || negb (has_column df col2_name)
      then mret (Error Columns_not_found_unnamed)
      else
        match getitem df col1_name, getitem df col2_name with
        | Some a, Some b =>
            let df := setitem df new_col_name (str_concat a sep b) in
            save_handle handle df;;
            mret (Handle handle)
        | _, _ =>
            (* several columns carry one of the two labels *)
            df ← lift_library
                   (df_combine_repeated df col1_name col2_name new_col_name sep);
            save_handle handle df;;
            mret (Handle handle)
        end
  end.

Definition join_dataframes (handle1 handle2 on_column how : string) : M world reply :=
  df1 ← load_handle handle1;
  df2 ← load_handle handle2;
  match df1, df2 with
  | Some df1, Some df2 =>
      if negb (has_column df1 on_column) || negb (has_column df2 on_column)
      then mret (Error Join_column_not_found_unnamed)
      else
        joined_df ← lift_sum (merge df_merge float_repr df1 df2 on_column how);
        new_handle ← new_uuid;
        save_handle new_handle joined_df;;
        mret (Handle new_handle)
  | _, _ => mret (Error Handles_not_found_unnamed)
  end.

(** [[col for col in columns if col not in df.columns]] *)
Definition missing_from (df : DataFrame) (cols : list string) : list string :=
  missing_from_cols (columns df) cols.

Definition select_columns (handle : string) (cols : list string) : M world reply :=
  df ← load_handle handle;
  match df with
  | None => mret (Error (Handle_not_found handle))
  | Some df =>
      match missing_from df cols with
      | (_ :: _) as missing_cols => mret (Error (Columns_not_found missing_cols))
      | [] =>
          selected ← lift_key "columns" (select df cols);
          let new_df := copy selected in
          new_handle ← new_uuid;
          save_handle new_handle new_df;;
          mret (Handle new_handle)
      end
  end.

Definition filter_rows (handle filter_expr : string) : M world reply :=
  df ← load_handle handle;
  match df with
  | None => mret (Error (Handle_not_found handle))
  | Some df =>
      filtered ← try_except
                   (filtered_df ← lift_library (df_query df filter_expr);
                    mret (inr filtered_df))
                   (λ e, mret (inl (Filtering_error e)));
      match filtered with
      | inl m => mret (Error m)
      | inr filtered_df =>
          new_handle ← new_uuid;
          save_handle new_handle filtered_df;;
          mret (Handle new_handle)
      end
  end.

Definition drop_columns (handle : string) (cols : list string) : M world reply :=
  df ← load_handle handle;
  match df with
  | None => mret (Error (Handle_not_found handle))
  | Some df =>
      let new_df := drop df cols in
      new_handle ← new_uuid;
      save_handle new_handle new_df;;
      mret (Handle new_handle)
  end.

Definition remove_duplicates (handle : string) : M world reply :=
  df ← load_handle handle;
  match df with
  | None => mret (Error (Handle_not_found handle))
  | Some df =>
      let new_df := drop_duplicates df in
      new_handle ← new_uuid;
      save_handle new_handle new_df;;
      mret (Handle new_handle)
  end.

(** [columns] defaults to [None]; [None] and the empty list both take the
    [else] branch of [if columns:]. *)
Definition distinct_rows (handle : string) (cols : option (list string)) : M world reply :=
  df ← load_handle handle;
  match df with
  | None => mret (Error (Handle_not_found handle))
  | Some df =>
      match cols with
      | Some ((_ :: _) as cols) =>
          match missing_from df cols with
          | (_ :: _) as missing_cols => mret (Error (Columns_not_found missing_cols))
          | [] =>
              selected ← lift_key "columns" (select df cols);
              let new_df := drop_duplicates selected in
              new_handle ← new_uuid;
              save_handle new_handle new_df;;
              mret (Handle new_handle)
          end
      | _ =>
          let new_df := drop_duplicates df in
          new_handle ← new_uuid;
          save_handle new_handle new_df;;
          mret (Handle new_handle)
      end
  end.

Definition get_schema (handle : string) : M world reply :=
  df ← load_handle handle;
  match df with
  | None => mret (Error (Handle_not_found handle))
  | Some df =>
      let schema_info :=
        mkDF ["column"; "dtype"]
          (zip_with (λ c t, [VStr c; VStr t]) (columns df) (df_dtypes df)) in
      let schema_info :=
        setitem schema_info "num_rows"
          (replicate (length (rows schema_info)) (VInt (len df))) in
      new_handle ← new_uuid;
      save_handle new_handle schema_info;;
      mret (Handle new_handle)
  end.

(** [agg_dict] is a dictionary from column to aggregation name, here in
    the order of its keys. *)
Definition group_by (handle : string) (group_columns : list string)
    (agg_dict : list (string * string)) : M world reply :=
  df ← load_handle handle;
  match df with
  | None => mret (Error (Handle_not_found handle))
  | Some df =>
      match missing_from df group_columns with
      | (_ :: _) as missing_group_cols =>
          mret (Error (Group_columns_not_found missing_group_cols))
      | [] =>
          match missing_from df agg_dict.*1 with
          | (_ :: _) as missing_agg_cols =>
              mret (Error (Aggregation_columns_not_found missing_agg_cols))
          | [] =>
              try_except
                (grouped_df ← lift_library (df_groupby_agg df group_columns agg_dict);
                 new_handle ← new_uuid;
                 save_handle new_handle grouped_df;;
                 mret (Handle new_handle))
                (λ e, mret (Error (Grouping_error e)))
          end
      end
  end.

(** ** Tool calls, as the transport hands them to the module *)

Inductive call :=
| Query_database (table_name : string)
| Combine_columns (handle col1_name col2_name new_col_name sep : string)
| Join_dataframes (handle1 handle2 on_column how : string)
| Select_columns (handle : string) (cols : list string)
| Filter_rows (handle filter_expr : string)
| Drop_columns (handle : string) (cols : list string)
| Remove_duplicates (handle : string)
| Distinct_rows (handle : string) (cols : option (list string))
| Get_schema (handle : string)
| Group_by (handle : string) (group_columns : list string)
    (agg_dict : list (string * string)).

Definition run (c : call) : M world reply :=
  match c with
  | Query_database t => query_database t
  | Combine_columns h c1 c2 n sep => combine_columns h c1 c2 n sep
  | Join_dataframes h1 h2 on how => join_dataframes h1 h2 on how
  | Select_columns h cols => select_columns h cols
  | Filter_rows h e => filter_rows h e
  | Drop_columns h cols => drop_columns h cols
  | Remove_duplicates h => remove_duplicates h
  | Distinct_rows h cols => distinct_rows h cols
  | Get_schema h => get_schema h
  | Group_by h g a => group_by h g a
  end.

(** the handles a call is given *)
Definition input_handles (c : call) : list string :=
  match c with
  | Query_database _ => []
  | Join_dataframes h1 h2 _ _ => [h1; h2]
  | Combine_columns h _ _ _ _ | Select_columns h _ | Filter_rows h _
  | Drop_columns h _ | Remove_duplicates h | Distinct_rows h _
  | Get_schema h | Group_by h _ _ => [h]
  end.

(** A session: calls one after the other; a call that raises is answered
    by the transport and the session goes on. *)
Fixpoint run_all (cs : list call) (w : world) : world :=
  match cs with
  | [] => w
  | c :: cs => run_all cs (run c w).2
  end.

(** what a handle resolves to *)
Definition resolve (w : world) (handle : string) : option DataFrame :=
  pickle_loads <$> handles w !! handle.

(** the answers of a session, in order *)
Fixpoint answers (cs : list call) (w : world) : list (call * outcome reply) :=
  match cs with
  | [] => []
  | c :: cs => (c, (run c w).1) :: answers cs (run c w).2
  end.

End tools.
End Server.

(** * The two servers that keep DataFrame objects in a dictionary

    [mcp_handles/df_abstractions.py] and [mcp_handles/pandas_generic.py]
    each hold the module globals [sample_db] (table name to DataFrame) and
    [data_handles] (handle to DataFrame). The values of both dictionaries
    are references to objects: two names can stand for one object, and
    writing a column into an object shows under every name that stands for
    it. Objects are numbered in the order they are made. *)
Module Memory.

Record world := mkWorld {
  (** the DataFrame objects made so far; an object's number is its place *)
  heap : list DataFrame;
  sample_db : gmap string nat;
  data_handles : gmap string nat;
  (** the number of tokens drawn so far *)
  draws : nat;
}.

(** a new object *)
Definition alloc (df : DataFrame) : M world nat := λ w,
  (Return (length (heap w)),
   mkWorld (heap w ++ [df]) (sample_db w) (data_handles w) (draws w)).

(** the table an object holds now *)
Definition read (obj : nat) : M world DataFrame := λ w,
  match heap w !! obj with
  | Some df => (Return df, w)
  | None => (Raise (Exception "ReferenceError" "no such object"), w)
  end.

(** changing an object in place *)
Definition write (obj : nat) (df : DataFrame) : M world unit := λ w,
  (Return (), mkWorld (<[obj := df]> (heap w)) (sample_db w) (data_handles w) (draws w)).

(** [obj.copy()] *)
Definition copy_object (obj : nat) : M world nat :=
  df ← read obj; alloc (copy df).

(** [data_handles[handle] = obj] *)
Definition bind_handle (handle : string) (obj : nat) : M world unit := λ w,
  (Return (),
   mkWorld (heap w) (sample_db w) (<[handle := obj]> (data_handles w)) (draws w)).

(** [str(uuid.uuid4())] *)
Definition new_uuid `{Runtime} : M world string := λ w,
  (Return (uuid4 (draws w)),
   mkWorld (heap w) (sample_db w) (data_handles w) (S (draws w))).

(** what a handle resolves to, and what a table name of [sample_db] holds *)
Definition resolve (w : world) (handle : string) : option DataFrame :=
  obj ← data_handles w !! handle; heap w !! obj.


(** the two modules start with the same [sample_db] and no handle *)
Definition users : DataFrame :=
  mkDF ["user_id"; "name"; "city"]
    [ [VInt 1; VStr "Alice"; VStr "New York"];
      [VInt 2; VStr "Bob"; VStr "London"];
      [VInt 3; VStr "Charlie"; VStr "Paris"];
      [VInt 4; VStr "David"; VStr "London"];
      [VInt 5; VStr "Eve"; VStr "Tokyo"] ].

Definition orders : DataFrame :=
  mkDF ["order_id"; "user_id"; "product"; "amount"]
    [ [VInt 101; VInt 1; VStr "Laptop"; VInt 1200];
      [VInt 102; VInt 2; VStr "Keyboard"; VInt 75];
      [VInt 103; VInt 1; VStr "Mouse"; VInt 25];
      [VInt 104; VInt 3; VStr "Monitor"; VInt 300];
      [VInt 105; VInt 5; VStr "Webcam"; VInt 50];
      [VInt 106; VInt 2; VStr "Desk"; VInt 250] ].

Definition initial : world :=
  mkWorld [users; orders] (<["users" := 0]> {["orders" := 1]}) ∅ 0.

End Memory.

(** * mcp_handles/df_abstractions.py *)
Module InMemory.
Import Memory.
Section tools.
Context {R : Runtime}.

Inductive message :=
| Table_not_found (table_name : string)
    (** ["Error: Table '{table_name}' not found in sample database."] *)
| Handle_not_found (handle : string)
    (** ["Error: Handle '{handle}' not found."] *)
| Columns_not_found (col1_name col2_name handle : string)
    (** ["Error: One or both columns ('{col1_name}', '{col2_name}') not
        found in DataFrame '{handle}'."] *)
| Combining_error (handle : string) (e : exn)
    (** ["Error combining columns for handle {handle}: {str(e)}"] *)
| Join_column_not_found (on_column : string)
    (** ["Error: Join column '{on_column}' not found in one or both
        DataFrames."] *)
| Invalid_join_type (how : string) (valid_joins : list string)
    (** ["Error: Invalid join type '{how}'. Must be one of {valid_joins}."] *)
| Joining_error (e : exn)
    (** ["Error joining dataframes: {str(e)}"] *)
| N_must_be_positive.
    (** ["Error: Number of rows 'n' must be a positive integer."] *)

(** What a tool returns, all of them Python [str]: a handle, an error
    text, the text of a shape, or the text [to_string()] gives for a
    table. *)
Inductive reply :=
| Handle (handle : string)
| Error (m : message)
| Shape (nrows ncols : nat)
| To_string (df : DataFrame).

Definition query_database (table_name : string) : M world reply :=
  seeds ← gets sample_db;
  match seeds !! table_name with
  | Some obj =>
      df_copy ← copy_object obj;
      handle ← new_uuid;
      bind_handle handle df_copy;;
      mret (Handle handle)
  | None => mret (Error (Table_not_found table_name))
  end.

Definition combine_columns (handle col1_name col2_name new_col_name sep : string)
  : M world reply :=
  handles ← gets data_handles;
  match handles !! handle with
  | None => mret (Error (Handle_not_found handle))
  | Some df =>
      cur ← read df;
      if negb (has_column cur col1_name) || negb (has_column cur col2_name)
      then mret (Error (Columns_not_found col1_name col2_name handle))
      else
        try_except
          (match getitem cur col1_name, getitem cur col2_name with
           | Some a, Some b =>
               write df (setitem cur new_col_name (str_concat a sep b));;
               bind_handle handle df;;
               mret (Handle handle)
           | _, _ =>
               (* several columns carry one of the two labels *)
               new ← lift_library
                       (df_combine_repeated cur col1_name col2_name new_col_name sep);
               write df new;;
               bind_handle handle df;;
               mret (Handle handle)
           end)
          (λ e, mret (Error (Combining_error handle e)))
  end.

Definition valid_joins : list string := ["left"; "right"; "outer"; "inner"].

Definition join_dataframes (handle1 handle2 on_column how : string) : M world reply :=
  handles ← gets data_handles;
  match handles !! handle1 with
  | None => mret (Error (Handle_not_found handle1))
  | Some df1 =>
      match handles !! handle2 with
      | None => mret (Error (Handle_not_found handle2))
      | Some df2 =>
          cur1 ← read df1;
          cur2 ← read df2;
          if negb (has_column cur1 on_column) || negb (has_column cur2 on_column)
          then mret (Error (Join_column_not_found on_column))
          else if bool_decide (how ∉ valid_joins)
          then mret (Error (Invalid_join_type how valid_joins))
          else
            try_except
              (joined ← lift_sum (merge df_merge float_repr cur1 cur2 on_column how);
               joined_df ← alloc joined;
               new_handle ← new_uuid;
               bind_handle new_handle joined_df;;
               mret (Handle new_handle))
              (λ e, mret (Error (Joining_error e)))
      end
  end.

Definition get_shape (handle : string) : M world reply :=
  handles ← gets data_handles;
  match handles !! handle with
  | None => mret (Error (Handle_not_found handle))
  | Some df =>
      cur ← read df;
      mret (Shape (length (rows cur)) (length (columns cur)))
  end.

Definition get_head (handle : string) : M world reply :=
  handles ← gets data_handles;
  match handles !! handle with
  | None => mret (Error (Handle_not_found handle))
  | Some df =>
      cur ← read df;
      mret (To_string (head cur 5))
  end.

(** [n] is declared [int]. *)
Definition MAX_ROWS : Z := 1000.

Definition get_top_n_rows (handle : string) (n : Z) : M world reply :=
  handles ← gets data_handles;
  match handles !! handle with
  | None => mret (Error (Handle_not_found handle))
  | Some df =>
      if decide (n ≤ 0)%Z then mret (Error N_must_be_positive)
      else
        let n := if decide (n > MAX_ROWS)%Z then MAX_ROWS else n in
        cur ← read df;
        mret (To_string (head cur n))
  end.

Inductive call :=
| Query_database (table_name : string)
| Combine_columns (handle col1_name col2_name new_col_name sep : string)
| Join_dataframes (handle1 handle2 on_column how : string)
| Get_shape (handle : string)
| Get_head (handle : string)
| Get_top_n_rows (handle : string) (n : Z).

Definition run (c : call) : M world reply :=
  match c with
  | Query_database t => query_database t
  | Combine_columns h c1 c2 n sep => combine_columns h c1 c2 n sep
  | Join_dataframes h1 h2 on how => join_dataframes h1 h2 on how
  | Get_shape h => get_shape h
  | Get_head h => get_head h
  | Get_top_n_rows h n => get_top_n_rows h n
  end.

(** A session: calls one after the other. *)
Fixpoint run_all (cs : list call) (w : world) : world :=
  match cs with
  | [] => w
  | c :: cs => run_all cs (run c w).2
  end.

End tools.
End InMemory.

(** * mcp_handles/pandas_generic.py *)
Module Generic.
Import Memory.

(** What a local variable of the executed code holds: a DataFrame object,
    or a value of some other type. *)
Inductive pyval :=
| Frame (obj : nat)
| Other (type_name : string).

Global Instance pyval_eq_dec : EqDecision pyval.
Proof. solve_decision. Defined.

(** What the module takes from Python and pandas besides [Runtime]. *)
Class Interpreter := {
  (** [exec(code, global_vars, local_vars)]: given the objects and the
      local variables, the code raises or ends with the local variables it
      leaves, and in both cases with the objects as it leaves them *)
  exec : string → list DataFrame → gmap string pyval →
         (exn + gmap string pyval) * list DataFrame;
  (** [df.sample(k)] *)
  df_sample : DataFrame → Z → library_error + DataFrame;
}.


Section tools.
Context {R : Runtime} {I : Interpreter}.

Inductive message :=
| Table_not_found (table_name : string)
    (** ["Error: Table '{table_name}' not found."] *)
| Input_handle_not_found (handle alias : string)
    (** ["Error: Input handle '{handle}' (alias '{alias}') not found."] *)
| Code_execution_error (e : exn)
    (** ["Error during code execution: {type(e).__name__}: {e}\n..."] *)
| Output_alias_not_found (alias : string)
    (** ["Error: Expected output alias '{alias}' not found after code
        execution."] *)
| Output_not_a_dataframe (alias type_name : string)
    (** ["Error: Output alias '{alias}' did not result in a DataFrame
        (type: {type(result_df).__name__})."] *)
| Handle_not_found (handle : string)
    (** ["Error: Handle '{handle}' not found."] *)
| Invalid_format (format : string)
    (** ["Error: Invalid format '{format}'. Valid formats are: ..."] *)
| Materializing_error (handle format : string) (e : exn).
    (** ["Error materializing DataFrame '{handle}' in format '{format}':
        {str(e)}"] *)

Definition query_database (table_name : string) : M world (message + string) :=
  seeds ← gets sample_db;
  match seeds !! table_name with
  | Some obj =>
      (* Return a copy to avoid modifying the original 'db' *)
      df_copy ← copy_object obj;
      handle ← new_uuid;
      bind_handle handle df_copy;;
      mret (inr handle)
  | None => mret (inl (Table_not_found table_name))
  end.

(** Load input DataFrames into the local execution context: the loop over
    [input_handles.items()], which returns the error of the first handle
    that is not in [data_handles]. *)
Fixpoint load_inputs (input_handles : list (string * string))
    (local_vars : gmap string pyval) : M world (message + gmap string pyval) :=
  match input_handles with
  | [] => mret (inr local_vars)
  | (alias, handle) :: rest =>
      handles ← gets data_handles;
      match handles !! handle with
      | None => mret (inl (Input_handle_not_found handle alias))
      | Some obj =>
          (* Pass copies to prevent unexpected modification of originals *)
          c ← copy_object obj;
          load_inputs rest (<[alias := Frame c]> local_vars)
      end
  end.

(** [exec(code, global_vars, local_vars)] *)
Definition run_code (code : string) (local_vars : gmap string pyval)
  : M world (gmap string pyval) := λ w,
  match exec code (heap w) local_vars with
  | (inr local_vars', hp) =>
      (Return local_vars', mkWorld hp (sample_db w) (data_handles w) (draws w))
  | (inl e, hp) =>
      (Raise e, mkWorld hp (sample_db w) (data_handles w) (draws w))
  end.

(** Process outputs: the loop over [output_aliases], which returns the
    error of the first alias that is missing or is no DataFrame.
    [output_handles] is the dictionary from alias to new handle: an alias
    listed twice has one entry, the handle made last. *)
Fixpoint store_outputs (output_aliases : list string) (local_vars : gmap string pyval)
    (output_handles : gmap string string)
  : M world (message + gmap string string) :=
  match output_aliases with
  | [] => mret (inr output_handles)
  | alias :: rest =>
      match local_vars !! alias with
      | None => mret (inl (Output_alias_not_found alias))
      | Some (Other type_name) => mret (inl (Output_not_a_dataframe alias type_name))
      | Some (Frame result_df) =>
          new_handle ← new_uuid;
          bind_handle new_handle result_df;;
          store_outputs rest local_vars (<[alias := new_handle]> output_handles)
      end
  end.

(** [input_handles] is a dictionary from alias to handle, here in the
    order of its keys; the result is the dictionary from output alias to
    new handle, or the error. *)
Definition execute_pandas_code (code : string) (input_handles : list (string * string))
    (output_aliases : list string) : M world (message + gmap string string) :=
  loaded ← load_inputs input_handles ∅;
  match loaded with
  | inl error_msg => mret (inl error_msg)
  | inr local_vars =>
      ran ← try_except (ls ← run_code code local_vars; mret (inr ls))
                       (λ e, mret (inl (Code_execution_error e)));
      match ran with
      | inl error_msg => mret (inl error_msg)
      | inr local_vars => store_outputs output_aliases local_vars ∅
      end
  end.

(** The argument [n]: declared [int], and tested with [isinstance]. *)
Inductive count :=
| Int (n : Z)
| NotInt.

(** The text a materialization returns, by the call that makes it. *)
Inductive rendering :=
| To_string (df : DataFrame)
    (** [df.to_string()] *)
| To_string_truncated (df : DataFrame) (max_rows : Z)
    (** [df.to_string() + "\n... (truncated to {max_rows} rows)"] *)
| To_json (orient : string) (df : DataFrame)
    (** [df.to_json(orient=orient, indent=2)] *)
| To_csv (df : DataFrame).
    (** [df.to_csv(csv_buffer, index=False)] *)

(** the table whose rows a text shows *)
Definition rendered (r : rendering) : DataFrame :=
  match r with
  | To_string df | To_string_truncated df _ | To_json _ df | To_csv df => df
  end.

Definition MAX_ROWS_FULL : Z := 1000.

(** [if not isinstance(n, int) or n <= 0: n = 5] *)
Definition default_n (n : count) : Z :=
  match n with
  | Int n => if decide (n ≤ 0)%Z then 5%Z else n
  | NotInt => 5%Z
  end.

Definition materialize_dataframe (handle format : string) (n : count)
  : M world (message + rendering) :=
  handles ← gets data_handles;
  match handles !! handle with
  | None => mret (inl (Handle_not_found handle))
  | Some obj =>
      let n := default_n n in
      df ← read obj;
      try_except
        (if decide (format = "head_string") then
           mret (inr (To_string (head df n)))
         else if decide (format = "tail_string") then
           mret (inr (To_string (tail df n)))
         else if decide (format = "sample_string") then
           s ← lift_library (df_sample df (Z.min n (len df)));
           mret (inr (To_string s))
         else if decide (format = "full_string") then
           (* Add safety limit for demo purposes *)
           if decide (len df > MAX_ROWS_FULL)%Z then
             mret (inr (To_string_truncated (head df MAX_ROWS_FULL) MAX_ROWS_FULL))
           else mret (inr (To_string df))
         else if decide (format = "json_records") then
           (* to_json(orient="records") asks for unique column labels *)
           if bool_decide (NoDup (columns df)) then mret (inr (To_json "records" df))
           else raise (Exception "ValueError"
                         "DataFrame columns must be unique for orient='records'.")
         else if decide (format = "json_split") then
           mret (inr (To_json "split" df))
         else if decide (format = "csv") then
           mret (inr (To_csv df))
         else mret (inl (Invalid_format format)))
        (λ e, mret (inl (Materializing_error handle format e)))
  end.

Definition get_shape (handle : string) : M world (message + nat * nat) :=
  handles ← gets data_handles;
  match handles !! handle with
  | None => mret (inl (Handle_not_found handle))
  | Some obj =>
      df ← read obj;
      mret (inr (length (rows df), length (columns df)))
  end.

(** ** Tool calls *)

Inductive call :=
| Query_database (table_name : string)
| Execute_pandas_code (code : string) (input_handles : list (string * string))
    (output_aliases : list string)
| Materialize_dataframe (handle format : string) (n : count)
| Get_shape (handle : string).

Inductive reply :=
| Handle (r : message + string)
| Handles (r : message + gmap string string)
| Text (r : message + rendering)
| Shape (r : message + nat * nat).

Definition answer {A} (f : A → reply) (m : M world A) : M world reply :=
  a ← m; mret (f a).

Definition run (c : call) : M world reply :=
  match c with
  | Query_database t => answer Handle (query_database t)
  | Execute_pandas_code code ins outs => answer Handles (execute_pandas_code code ins outs)
  | Materialize_dataframe h f n => answer Text (materialize_dataframe h f n)
  | Get_shape h => answer Shape (get_shape h)
  end.

(** whether a reply is an error *)
Definition is_error (r : reply) : bool :=
  match r with
  | Handle (inl _) | Handles (inl _) | Text (inl _) | Shape (inl _) => true
  | _ => false
  end.

(** A session: calls one after the other. *)
Fixpoint run_all (cs : list call) (w : world) : world :=
  match cs with
  | [] => w
  | c :: cs => run_all cs (run c w).2
  end.

End tools.
End Generic.

(** * openai_sdk.py: what the client does with the agent's final answer *)
Module Client.
Section client.
Context {R : Runtime}.

(** The final output of the agent, parsed: a JSON object, of which the
    code reads the keys ["error"] and ["handle"]. *)
Record answer := mkAnswer { ans_error : option string; ans_handle : option string }.

(** What [run] prints about the result. *)
Inductive shown :=
| No_handle_returned
    (** ["Error: No handle was returned by the agent."] *)
| Invalid_handle (handle : string)
    (** ["Error: Invalid handle '{handle}' - not found in database."] *)
| Schema (num_rows : value) (cols : list (value * value))
    (** ["DataFrame Schema:"], the number of rows and one line per column *)
| Contents (df : DataFrame)
    (** ["DataFrame contents:"] and [print(df)] *)
| Could_not_load
    (** ["Error: Could not load DataFrame from handle."] *)
| Processing_error (e : exn).
    (** ["Error processing result: {str(e)}"] *)

(** [fetch_dataframe]: a connection of its own to the database file, one
    [SELECT dataframe FROM handles WHERE handle = ?]. [db] is the rows of
    table [handles] in the file. *)
Definition fetch_dataframe (db : gmap string blob) (handle : string) : option DataFrame :=
  match db !! handle with
  | Some result => Some (pickle_loads result)
  | None => None
  end.

(** [SELECT EXISTS(SELECT 1 FROM handles WHERE handle = ?)] *)
Definition handle_exists (db : gmap string blob) (handle : string) : bool :=
  bool_decide (is_Some (db !! handle)).

(** [set(df.columns) == {'column', 'dtype'} and 'num_rows' in df] *)
Definition is_schema_result (df : DataFrame) : bool :=
  bool_decide ((list_to_set (columns df) : gset string) = {["column"; "dtype"]})
  && has_column df "num_rows".

(** The part of [run] after [json.loads]: it raises when the answer has
    the key ["error"], and otherwise prints one report; an exception inside
    the [try] block is printed as a processing error. *)
Definition report_result (db : gmap string blob) (res : answer) : exn + shown :=
  match ans_error res with
  | Some e => inl (Exception "Exception" e)
  | None =>
      inr
        match ans_handle res with
        | None => Processing_error (Exception "KeyError" "handle")
        | Some handle =>
            if decide (handle = "") then No_handle_returned
            else if negb (handle_exists db handle) then Invalid_handle handle
            else
              match fetch_dataframe db handle with
              | Some df =>
                  if is_schema_result df then
                    match getitem df "num_rows", getitem (drop df ["num_rows"]) "column",
                          getitem (drop df ["num_rows"]) "dtype" with
                    | Some (n :: _), Some cs, Some ts => Schema n (zip cs ts)
                    | Some [], _, _ =>
                        Processing_error
                          (Exception "IndexError" "single positional indexer is out-of-bounds")
                    | _, _, _ => Processing_error (Exception "KeyError" "num_rows")
                    end
                  else Contents df
              | None => Could_not_load
              end
        end
  end.

End client.
End Client.

(** * Facts about the pandas model *)
Module PandasFacts.
Import Pandas.

Lemma has_column_true df c : has_column df c = true ↔ c ∈ columns df.
Proof. unfold has_column. by rewrite bool_decide_eq_true. Qed.

Lemma positions_from_shift i cols c :
  positions_from (S i) cols c = S <$> positions_from i cols c.
Proof.
  revert i. induction cols as [|x cols IH]; intros i; [done|].
  cbn [positions_from]. destruct (decide (x = c)); rewrite IH; done.
Qed.

Lemma positions_cons x cols c :
  positions (x :: cols) c =
  (if decide (x = c) then [0] else []) ++ (S <$> positions cols c).
Proof.
  unfold positions. cbn [positions_from]. rewrite positions_from_shift.
  by destruct (decide (x = c)).
Qed.

Lemma elem_of_positions cols c k : k ∈ positions cols c ↔ cols !! k = Some c.
Proof.
  revert k. induction cols as [|x cols IH]; intros k.
  - unfold positions. cbn. rewrite elem_of_nil. by split.
  - rewrite positions_cons, elem_of_app, list_elem_of_fmap. destruct k as [|k]; cbn.
    + destruct (decide (x = c)) as [->|Hne].
      * split; [done|]. intros _. left. by left.
      * split; [|congruence]. intros [H|(y & H & _)]; [by apply elem_of_nil in H|done].
    + rewrite <-IH. split.
      * intros [H|(y & [= <-] & Hy)]; [|done].
        destruct (decide (x = c)); [|by apply elem_of_nil in H].
        apply list_elem_of_singleton in H. done.
      * intros H. right. eauto.
Qed.

Lemma positions_nil cols c : positions cols c = [] ↔ c ∉ cols.
Proof.
  split.
  - intros H [k Hk]%list_elem_of_lookup_1. apply elem_of_positions in Hk.
    rewrite H in Hk. by apply elem_of_nil in Hk.
  - intros H. apply elem_of_nil_inv. intros k Hk%elem_of_positions.
    apply H. by eapply list_elem_of_lookup_2.
Qed.

Lemma positions_lt cols c k : k ∈ positions cols c → k < length cols.
Proof. intros H%elem_of_positions. by eapply lookup_lt_Some. Qed.

(** a label that one column carries, and no other *)
Lemma positions_unique cols c i :
  NoDup cols → cols !! i = Some c → positions cols c = [i].
Proof.
  revert i. induction cols as [|x cols IH]; intros i Hnd Hi; [done|].
  apply NoDup_cons in Hnd as [Hx Hnd]. rewrite positions_cons.
  destruct i as [|i]; cbn in Hi.
  - injection Hi as ->. rewrite decide_True by done.
    apply positions_nil in Hx. by rewrite Hx.
  - rewrite decide_False.
    + by rewrite (IH i Hnd Hi).
    + intros ->. apply Hx. by eapply list_elem_of_lookup_2.
Qed.

Lemma positions_app_new cols c : c ∉ cols → positions (cols ++ [c]) c = [length cols].
Proof.
  induction cols as [|x cols IH]; intros Hc.
  - rewrite app_nil_l, positions_cons, decide_True by done. done.
  - apply not_elem_of_cons in Hc as [Hx Hc]. cbn [app length].
    rewrite positions_cons, decide_False by done. by rewrite IH.
Qed.

Lemma getitem_Some df c vals :
  getitem df c = Some vals ↔
  ∃ i, positions (columns df) c = [i] ∧ vals = (λ r, cell r i) <$> rows df.
Proof.
  unfold getitem. destruct (positions (columns df) c) as [|i [|k ps]]; split;
    try done; try (by intros (? & ? & ?)).
  - intros [= <-]. eauto.
  - intros (i' & [= <-] & ->). done.
Qed.

(** in a table without a repeated label, [df[col]] is a column for every
    label of the table *)
Lemma getitem_at df c i :
  NoDup (columns df) → columns df !! i = Some c →
  getitem df c = Some ((λ r, cell r i) <$> rows df).
Proof. intros Hnd Hi. apply getitem_Some. exists i. by rewrite (positions_unique _ _ i). Qed.

Lemma getitem_elem_of df c vals : getitem df c = Some vals → c ∈ columns df.
Proof.
  intros (i & Hi & _)%getitem_Some.
  assert (i ∈ positions (columns df) c) as Hin%elem_of_positions by (rewrite Hi; by left).
  by eapply list_elem_of_lookup_2.
Qed.

Lemma getitem_length df c vals : getitem df c = Some vals → length vals = length (rows df).
Proof. intros (i & _ & ->)%getitem_Some. by rewrite length_fmap. Qed.

Lemma str_concat_length a sep b :
  length a = length b → length (str_concat a sep b) = length a.
Proof. intros H. unfold str_concat. rewrite length_zip_with. lia. Qed.

(** the combined column, cell by cell *)
Lemma str_concat_cells (rs : list (list value)) i1 i2 sep :
  str_concat ((λ r, cell r i1) <$> rs) sep ((λ r, cell r i2) <$> rs)
  = (λ r, VStr (str (cell r i1) +:+ sep +:+ str (cell r i2))) <$> rs.
Proof. unfold str_concat. induction rs as [|r rs IH]; [done|]. cbn. by rewrite IH. Qed.

Lemma zip_with_fmap_same {A B C} (f : A → B → C) (g : A → B) (l : list A) :
  zip_with f l (g <$> l) = (λ x, f x (g x)) <$> l.
Proof. induction l as [|x l IH]; [done|]. cbn. by rewrite IH. Qed.

End PandasFacts.

(** * Facts about the state-passing layer *)

Lemma bind_run {S A B} (m : M S A) (f : A → M S B) s :
  (m ≫= f) s =
  match m s with
  | (Return a, s') => f a s'
  | (Raise e, s') => (Raise e, s')
  end.
Proof. reflexivity. Qed.

Lemma ret_run {S A} (a : A) (s : S) : (mret a : M S A) s = (Return a, s).
Proof. reflexivity. Qed.

Lemma try_except_run {S A} (body : M S A) handler s :
  try_except body handler s =
  match body s with
  | (Return a, s') => (Return a, s')
  | (Raise e, s') => if exn_ordinary e then handler e s' else (Raise e, s')
  end.
Proof. reflexivity. Qed.

Lemma raise_run {S A} e (s : S) : (raise e : M S A) s = (Raise e, s).
Proof. reflexivity. Qed.

(** * Facts about mcp_handles_server/df_abstractions.py *)
Module ServerFacts.
Import Pandas PandasFacts Server.
Section facts.
Context {R : Runtime}.

(** the statements one [load_handle] runs *)
Definition reads (w : world) (handle : string) : list statement :=
  match handles w !! handle with
  | Some _ => [SELECT_dataframe handle]
  | None => [SELECT_dataframe handle; SELECT_handles]
  end.

Lemma load_handle_run handle w :
  load_handle handle w =
  (Return (resolve w handle),
   mkWorld (handles w) (journal w ++ reads w handle) (draws w)).
Proof.
  unfold load_handle, fetchone_dataframe, fetchall_handles, resolve, reads.
  rewrite !bind_run. cbn.
  destruct (handles w !! handle); cbn; [done|].
  rewrite !bind_run. cbn. by rewrite <-app_assoc.
Qed.

Lemma execute_run st w :
  execute st w =
  (Return (),
   mkWorld
     match st with
     | INSERT_OR_REPLACE h b => <[h := b]> (handles w)
     | _ => handles w
     end
     (journal w ++ [st]) (draws w)).
Proof. reflexivity. Qed.

Lemma save_handle_run handle df w :
  save_handle handle df w =
  (Return (),
   mkWorld (<[handle := pickle_dumps df]> (handles w))
     (journal w ++ [INSERT_OR_REPLACE handle (pickle_dumps df); COMMIT;
                    SELECT_dataframe handle])
     (draws w)).
Proof.
  unfold save_handle.
  rewrite bind_run, execute_run. cbv beta iota.
  rewrite bind_run, execute_run. cbv beta iota.
  rewrite bind_run, load_handle_run. cbv beta iota.
  unfold resolve, reads. cbn [handles journal draws].
  rewrite lookup_insert_eq. cbn [fmap option_fmap option_map].
  rewrite ret_run. by rewrite <-!app_assoc.
Qed.

Lemma new_uuid_run w :
  new_uuid w = (Return (uuid4 (draws w)), mkWorld (handles w) (journal w) (S (draws w))).
Proof. reflexivity. Qed.

End facts.

(** one step of a tool body *)
Ltac mstep :=
  repeat progress
    (cbv beta iota;
     cbn [lift_key lift_sum lift_library exn_ordinary raised Exception
          handles journal draws];
     rewrite ?bind_run, ?load_handle_run, ?save_handle_run, ?new_uuid_run,
       ?ret_run, ?try_except_run, ?raise_run).

Section shape.
Context {R : Runtime}.

(** The table a successful call stores, and under which token: the token
    of the call for [combine_columns], the next draw for every other
    tool. *)
Definition is_rebind (c : call) : bool :=
  match c with Combine_columns _ _ _ _ _ => true | _ => false end.

Lemma run_shape c w :
  match run c w with
  | (Return (Handle t), w') =>
      (∃ df, handles w' = <[t := pickle_dumps df]> (handles w)) ∧
      (if is_rebind c then input_handles c = [t] ∧ draws w' = draws w
       else t = uuid4 (draws w) ∧ draws w' = S (draws w)) ∧
      Forall (λ h, is_Some (handles w !! h)) (input_handles c)
  | (_, w') => handles w' = handles w ∧ draws w' = draws w
  end.
Proof.
  destruct c; cbn [run is_rebind input_handles].
  - unfold query_database. destruct (lookup_table _ _); mstep; eauto 10.
  - unfold combine_columns. mstep. unfold resolve.
    destruct (handles w !! handle) as [b|] eqn:Hb; cbn [fmap option_fmap option_map]; mstep; [|done].
    destruct (negb _ || negb _) eqn:Hg; mstep; [done|].
    destruct (getitem (pickle_loads b) col1_name) as [a|],
             (getitem (pickle_loads b) col2_name) as [b'|]; mstep;
      try (destruct (df_combine_repeated _ _ _ _ _); mstep; [done|]);
      rewrite ?Forall_singleton; eauto 10.
  - unfold join_dataframes. mstep. unfold resolve. cbn [handles].
    destruct (handles w !! handle1) as [b1|] eqn:Hb1,
             (handles w !! handle2) as [b2|] eqn:Hb2;
      cbn [fmap option_fmap option_map]; mstep; try done.
    destruct (negb _ || negb _); mstep; [done|].
    destruct (merge _ _ _ _ _); mstep; [done|].
    repeat split; eauto.
  - unfold select_columns. mstep. unfold resolve.
    destruct (handles w !! handle) as [b|] eqn:Hb; cbn [fmap option_fmap option_map]; mstep; [|done].
    destruct (missing_from _ _); mstep; [|done].
    destruct (select _ _); mstep; [|done].
    rewrite ?Forall_singleton; eauto 10.
  - unfold filter_rows. mstep. unfold resolve.
    destruct (handles w !! handle) as [b|] eqn:Hb; cbn [fmap option_fmap option_map]; mstep; [|done].
    destruct (df_query _ _); mstep; [done|].
    rewrite ?Forall_singleton; eauto 10.
  - unfold drop_columns. mstep. unfold resolve.
    destruct (handles w !! handle) as [b|] eqn:Hb; cbn [fmap option_fmap option_map]; mstep; [|done].
    rewrite ?Forall_singleton; eauto 10.
  - unfold remove_duplicates. mstep. unfold resolve.
    destruct (handles w !! handle) as [b|] eqn:Hb; cbn [fmap option_fmap option_map]; mstep; [|done].
    rewrite ?Forall_singleton; eauto 10.
  - unfold distinct_rows. mstep. unfold resolve.
    destruct (handles w !! handle) as [b|] eqn:Hb; cbn [fmap option_fmap option_map]; mstep; [|done].
    destruct cols as [[|c cols]|]; mstep.
    + rewrite ?Forall_singleton; eauto 10.
    + destruct (missing_from _ _); mstep; [|done].
      destruct (select _ _); mstep; [|done].
      rewrite ?Forall_singleton; eauto 10.
    + rewrite ?Forall_singleton; eauto 10.
  - unfold get_schema. mstep. unfold resolve.
    destruct (handles w !! handle) as [b|] eqn:Hb; cbn [fmap option_fmap option_map]; mstep; [|done].
    rewrite ?Forall_singleton; eauto 10.
  - unfold group_by. mstep. unfold resolve.
    destruct (handles w !! handle) as [b|] eqn:Hb; cbn [fmap option_fmap option_map]; mstep; [|done].
    destruct (missing_from _ group_columns); mstep; [|done].
    destruct (missing_from _ _); mstep; [|done].
    destruct (df_groupby_agg _ _ _); mstep; [done|].
    rewrite ?Forall_singleton; eauto 10.
Qed.

End shape.

Lemma missing_pair_guard T c1 c2 :
  missing_from T [c1; c2] ≠ [] →
  negb (has_column T c1) || negb (has_column T c2) = true.
Proof.
  unfold missing_from, missing_from_cols, has_column.
  rewrite !filter_cons, filter_nil.
  destruct (decide (c1 ∉ columns T)) as [H1|H1].
  - by rewrite bool_decide_eq_false_2.
  - destruct (decide (c2 ∉ columns T)) as [H2|H2]; [|done].
    rewrite (bool_decide_eq_false_2 _ H2). by rewrite orb_true_r.
Qed.

End ServerFacts.

(** * Facts about column assignment *)
Module SetitemFacts.
Import Pandas PandasFacts.

Lemma set_cells_length ps v (r : list value) : length (set_cells ps v r) = length r.
Proof.
  unfold set_cells. induction ps as [|p ps IH]; cbn; [done|]. by rewrite length_insert.
Qed.

(** After [df[col] = vals]: no row is added or lost, a label that was not
    there becomes the last column, a label that was there keeps the labels
    as they are, and the cells are set row by row. *)
Lemma setitem_length df col vals :
  length vals = length (rows df) → length (rows (setitem df col vals)) = length (rows df).
Proof.
  intros Hlen. unfold setitem.
  destruct (positions _ _); cbn [rows]; rewrite length_zip_with; lia.
Qed.

Lemma setitem_columns_new df col vals :
  col ∉ columns df → columns (setitem df col vals) = columns df ++ [col].
Proof. intros H%positions_nil. unfold setitem. by rewrite H. Qed.

Lemma setitem_columns_old df col vals :
  col ∈ columns df → columns (setitem df col vals) = columns df.
Proof.
  intros H. unfold setitem. destruct (positions (columns df) col) eqn:E; [|done].
  by apply positions_nil in E.
Qed.

Lemma setitem_rows_new df col vals :
  col ∉ columns df →
  rows (setitem df col vals) = zip_with (λ r v, r ++ [v]) (rows df) vals.
Proof. intros H%positions_nil. unfold setitem. by rewrite H. Qed.

Lemma setitem_rows_at df col vals p :
  NoDup (columns df) → columns df !! p = Some col →
  rows (setitem df col vals) = zip_with (λ r v, <[p := v]> r) (rows df) vals.
Proof.
  intros Hnd Hp. unfold setitem. by rewrite (positions_unique _ _ p).
Qed.

Lemma setitem_wf df col vals : wf df → wf (setitem df col vals).
Proof.
  unfold wf, setitem. intros Hwf.
  destruct (positions _ _) as [|p ps]; cbn [columns rows].
  - revert vals. induction Hwf as [|r rs Hr _ IH]; intros [|v vs]; cbn; try done.
    constructor; [rewrite !length_app; cbn; lia | apply IH].
  - revert vals. induction Hwf as [|r rs Hr _ IH]; intros [|v vs]; cbn [zip_with];
      try done.
    constructor; [by rewrite set_cells_length | apply IH].
Qed.

End SetitemFacts.

(** * Facts about projections and duplicate rows *)
Module RowFacts.
Import Pandas PandasFacts SetitemFacts.

(** The rows that differ from every row before them, in their order: row
    [i] stays when it is not among the first [i] rows. *)
Definition without_repeats (l : list (list value)) : list (list value) :=
  (filter (λ p, p.2 ∉ take p.1 l) (imap pair l)).*2.

Lemma first_occurrences_from (l pre seen : list (list value)) :
  (∀ x, x ∈ seen ↔ x ∈ pre) →
  first_occurrences seen l =
  (filter (λ p, p.2 ∉ take p.1 (pre ++ l)) (imap (λ i r, (length pre + i, r)) l)).*2.
Proof.
  revert pre seen. induction l as [|r l IH]; intros pre seen Hseen; [done|].
  cbn [first_occurrences imap]. rewrite filter_cons. cbn [fst snd].
  rewrite Nat.add_0_r, take_app_length.
  assert (imap ((λ i r0, (length pre + i, r0)) ∘ S) l
          = imap (λ i r0, (length (pre ++ [r]) + i, r0)) l) as ->.
  { apply imap_ext. intros i x _. cbn. rewrite length_app. cbn. f_equal. lia. }
  replace (pre ++ r :: l) with ((pre ++ [r]) ++ l) by (by rewrite <-app_assoc).
  destruct (decide (r ∈ seen)) as [Hin|Hin].
  - rewrite decide_False by (rewrite <-Hseen; tauto).
    apply IH. intros x. rewrite elem_of_app, list_elem_of_singleton, <-Hseen.
    split; [tauto|]. intros [?| ->]; done.
  - rewrite decide_True by (by rewrite <-Hseen).
    cbn [fmap list_fmap snd]. f_equal.
    apply IH. intros x. rewrite elem_of_cons, elem_of_app, list_elem_of_singleton, <-Hseen.
    tauto.
Qed.

(** [drop_duplicates] keeps exactly the rows that differ from every
    earlier row. *)
Lemma first_occurrences_spec (l : list (list value)) :
  first_occurrences [] l = without_repeats l.
Proof. by rewrite (first_occurrences_from l [] []). Qed.

Lemma missing_from_nil df (names : list string) :
  missing_from_cols (columns df) names = [] ↔ Forall (λ c, c ∈ columns df) names.
Proof.
  unfold missing_from_cols. induction names as [|c names IH]; [by split|].
  rewrite filter_cons. destruct (decide (c ∉ columns df)) as [Hc|Hc].
  - split; [done|]. intros [? _]%Forall_cons. done.
  - rewrite IH, Forall_cons. apply dec_stable in Hc. tauto.
Qed.

(** What [df[names]] takes from a table without a repeated label: for each
    name the one column that carries it. *)
Lemma select_positions cols (names : list string) :
  NoDup cols → Forall (λ c, c ∈ cols) names →
  Forall2 (λ c p, cols !! p = Some c) names (names ≫= positions cols) ∧
  names ≫= (λ c, (λ _, c) <$> positions cols c) = names.
Proof.
  intros Hnd Hall.
  induction Hall as [|c names [i Hi]%list_elem_of_lookup_1 _ [IH1 IH2]].
  - split; [constructor|done].
  - rewrite !bind_cons, (positions_unique _ _ i Hnd Hi). cbn. split.
    + by constructor.
    + by rewrite IH2.
Qed.

(** [df[names]] when every label exists: as many rows as before; and, for
    a table without a repeated label, the labels asked for in the order
    asked, each row holding the cells of the columns asked for. *)
Lemma select_Some df (names : list string) :
  Forall (λ c, c ∈ columns df) names →
  ∃ P, select df names = Some P ∧
       length (rows P) = length (rows df) ∧
       (NoDup (columns df) →
        columns P = names ∧
        ∃ ps, Forall2 (λ c p, columns df !! p = Some c) names ps ∧
              rows P = (λ r, cell r <$> ps) <$> rows df).
Proof.
  intros Hall. unfold select. rewrite bool_decide_eq_true_2 by done.
  eexists. split; [done|]. cbn [columns rows]. split; [by rewrite length_fmap|].
  intros Hnd. destruct (select_positions _ _ Hnd Hall) as [Hps Hcols].
  split; [done|]. eauto.
Qed.

Lemma select_columns_nonempty df c (names : list string) P :
  select df (c :: names) = Some P → columns P ≠ [].
Proof.
  unfold select. case_bool_decide as Hall; [|done]. intros [= <-]. cbn [columns].
  apply Forall_cons in Hall as [Hc _].
  destruct (positions (columns df) c) eqn:E; [by apply positions_nil in E|]. done.
Qed.

(** [drop_duplicates] of a table that has a column keeps exactly the rows
    that differ from every earlier row. *)
Lemma drop_duplicates_spec df :
  columns df ≠ [] → drop_duplicates df = mkDF (columns df) (without_repeats (rows df)).
Proof.
  intros Hc. unfold drop_duplicates, is_empty, copy.
  rewrite (bool_decide_eq_false_2 _ Hc). cbn [orb].
  case_bool_decide as Hr.
  - destruct df as [cs rs]. cbn in *. by subst rs.
  - by rewrite first_occurrences_spec.
Qed.

End RowFacts.

(** * Facts about joins *)
Module MergeFacts.
Import Pandas PandasFacts.









Lemma existsb_false {A} (f : A → bool) (l : list A) :
  (∀ x, x ∈ l → f x = false) → existsb f l = false.
Proof.
  induction l as [|x l IH]; intros H; [done|]. cbn.
  rewrite (H x) by (by left). apply IH. intros y Hy. apply H. by right.
Qed.

Lemma suffix_repeats_same (l : list string) : suffix_repeats l l = false.
Proof.
  unfold suffix_repeats. apply existsb_false. intros b Hb.
  apply elem_of_lookup_zip_with in Hb as (k & was & now & -> & Hw & Hn).
  rewrite Hw in Hn. injection Hn as <-. by destruct was.
Qed.

Lemma suffixed_left_disjoint (left right : DataFrame) on :
  (∀ c, c ∈ columns left → c ∈ columns right → c = on) →
  suffixed (columns right) on "_x" <$> columns left = columns left.
Proof.
  intros Hshared. rewrite <-(list_fmap_id (columns left)) at 2. apply list_fmap_ext.
  intros _ c Hc%list_elem_of_lookup_2. unfold suffixed.
  rewrite bool_decide_eq_false_2; [done|]. intros [Hne Hin]. eauto.
Qed.

Lemma suffixed_right_disjoint (left right : DataFrame) on j :
  (∀ c, c ∈ columns left → c ∈ columns right → c = on) →
  suffixed (columns left) on "_y" <$> delete j (columns right) = delete j (columns right).
Proof.
  intros Hshared. rewrite <-(list_fmap_id (delete j (columns right))) at 2.
  apply list_fmap_ext. intros _ c Hc%list_elem_of_lookup_2. unfold suffixed.
  rewrite bool_decide_eq_false_2; [done|]. intros [Hne Hin].
  apply Hne, Hshared; [done|]. by eapply list_elem_of_delete_inv.
Qed.

(** when the key is the only label the two sides share, no suffix is
    given and no label is made twice *)
Lemma disjoint_no_clash (left right : DataFrame) on j :
  (∀ c, c ∈ columns left → c ∈ columns right → c = on) →
  suffixes_clash left right on j = false ∧
  suffix_meets_other_side left right on j = false.
Proof.
  intros Hshared. unfold suffixes_clash, suffix_meets_other_side.
  rewrite (suffixed_left_disjoint _ _ _ Hshared), (suffixed_right_disjoint _ _ _ _ Hshared).
  rewrite !suffix_repeats_same. split; [done|]. apply orb_false_intro.
  - apply existsb_false. intros c Hc. apply bool_decide_eq_false_2. tauto.
  - apply existsb_false. intros c Hc. apply bool_decide_eq_false_2. tauto.
Qed.

Section merge_runs.
Variable library : DataFrame → DataFrame → string → join_kind →
                   library_error + DataFrame.
Variable big_float : Z → string.



(** what [pd.merge] raises derives from [Exception] *)
Lemma merge_raises_ordinary (L Rt : DataFrame) on how e :
  merge library big_float L Rt on how = inl e → exn_ordinary e = true.
Proof.
  unfold merge. destruct (parse_how how) as [kind|]; [|by intros [= <-]].
  destruct (positions (columns L) on) as [|i [|i' ps]],
           (positions (columns Rt) on) as [|j [|j' qs]];
    try (by intros [= <-]).
  cbv zeta. repeat (case_match; try (by intros [= <-])).
  all: try (destruct (library L Rt on _); intros [= <-]; done).
Qed.

End merge_runs.

End MergeFacts.

(** * Facts about the object store *)
Module MemoryFacts.
Import Pandas Memory.

Lemma gets_run {S A} (f : S → A) (s : S) : gets f s = (Return (f s), s).
Proof. reflexivity. Qed.

Lemma alloc_run df w :
  alloc df w =
  (Return (length (heap w)),
   mkWorld (heap w ++ [df]) (sample_db w) (data_handles w) (draws w)).
Proof. reflexivity. Qed.

Lemma read_run obj df w : heap w !! obj = Some df → read obj w = (Return df, w).
Proof. intros H. unfold read. by rewrite H. Qed.

Lemma read_run_None obj w :
  heap w !! obj = None →
  read obj w = (Raise (Exception "ReferenceError" "no such object"), w).
Proof. intros H. unfold read. by rewrite H. Qed.

Lemma write_run obj df w :
  write obj df w =
  (Return (), mkWorld (<[obj := df]> (heap w)) (sample_db w) (data_handles w) (draws w)).
Proof. reflexivity. Qed.

Lemma bind_handle_run handle obj w :
  bind_handle handle obj w =
  (Return (),
   mkWorld (heap w) (sample_db w) (<[handle := obj]> (data_handles w)) (draws w)).
Proof. reflexivity. Qed.

Lemma fresh_uuid_run `{Runtime} w :
  new_uuid w =
  (Return (uuid4 (draws w)),
   mkWorld (heap w) (sample_db w) (data_handles w) (S (draws w))).
Proof. reflexivity. Qed.

Lemma copy_object_run obj df w :
  heap w !! obj = Some df →
  copy_object obj w =
  (Return (length (heap w)),
   mkWorld (heap w ++ [df]) (sample_db w) (data_handles w) (draws w)).
Proof.
  intros H. unfold copy_object. rewrite bind_run, (read_run _ _ _ H). apply alloc_run.
Qed.

Lemma copy_object_run_None obj w :
  heap w !! obj = None →
  copy_object obj w = (Raise (Exception "ReferenceError" "no such object"), w).
Proof.
  intros H. unfold copy_object. by rewrite bind_run, (read_run_None _ _ H).
Qed.

(** ** What a call may change

    [w'] keeps [w]: every object of [w] holds the table it held,
    [sample_db] names the same objects, and [data_handles] differs at most
    at tokens drawn from [w] on. *)
Section keeps.
Context {R : Runtime}.

Record keeps (w w' : world) : Prop := {
  keeps_objects : ∀ obj df, heap w !! obj = Some df → heap w' !! obj = Some df;
  keeps_seeds : sample_db w' = sample_db w;
  keeps_draws : draws w ≤ draws w';
  keeps_handles : ∀ h, (∀ i, draws w ≤ i < draws w' → h ≠ uuid4 i) →
                       data_handles w' !! h = data_handles w !! h;
}.





(** no token of a later draw is a handle yet *)
Definition fresh_supply (w : world) : Prop :=
  ∀ i, draws w ≤ i → data_handles w !! uuid4 i = None.


Lemma keeps_fresh `{!RuntimeLaws R} w w' : fresh_supply w → keeps w w' → fresh_supply w'.
Proof.
  intros Hfresh [_ _ HD HH] i Hi. rewrite HH; [apply Hfresh; lia|].
  intros k Hk Heq%uuid4_inj. lia.
Qed.


End keeps.
End MemoryFacts.

(** * Facts about mcp_handles/pandas_generic.py *)
Module GenericFacts.
Import Pandas Memory MemoryFacts Generic.

Ltac gstep :=
  repeat progress
    (cbv beta iota;
     cbn [lift_key lift_sum lift_library exn_ordinary raised Exception
          heap sample_db data_handles draws];
     rewrite ?bind_run, ?gets_run, ?alloc_run, ?write_run, ?bind_handle_run,
       ?fresh_uuid_run, ?ret_run, ?try_except_run, ?raise_run).

Section facts.
Context {R : Runtime} {I : Interpreter}.

(** Loading the inputs only makes objects: the copies. Each local
    variable it adds stands for an object made during the loading. *)
Lemma load_inputs_spec ins ls w :
  ∃ extra,
    heap (load_inputs ins ls w).2 = heap w ++ extra ∧
    sample_db (load_inputs ins ls w).2 = sample_db w ∧
    data_handles (load_inputs ins ls w).2 = data_handles w ∧
    draws (load_inputs ins ls w).2 = draws w ∧
    ∀ ls', (load_inputs ins ls w).1 = Return (inr ls') →
      ∀ alias obj, ls' !! alias = Some (Frame obj) →
        ls !! alias = Some (Frame obj) ∨ length (heap w) ≤ obj.
Proof.
  revert ls w. induction ins as [|[alias handle] ins IH]; intros ls w.
  - exists []. cbn. rewrite app_nil_r. repeat split. intros ls' [= <-]. eauto.
  - cbn [load_inputs]. gstep.
    destruct (data_handles w !! handle) as [obj|]; gstep.
    2:{ exists []. cbn. rewrite app_nil_r. repeat split. done. }
    destruct (heap w !! obj) as [df|] eqn:Hobj.
    2:{ rewrite (copy_object_run_None _ _ Hobj). exists []. cbn.
        rewrite app_nil_r. repeat split. done. }
    rewrite (copy_object_run _ _ _ Hobj). gstep.
    edestruct (IH (<[alias := Frame (length (heap w))]> ls)) as (extra & Hh & Hs & Hd & Hn & Hl).
    exists (df :: extra). rewrite Hh, Hs, Hd, Hn. cbn.
    rewrite <-app_assoc. repeat split.
    intros ls' Hret a o Ha. destruct (Hl ls' Hret a o Ha) as [Hin|Hge].
    + rewrite lookup_insert in Hin. case_decide; [|by left].
      injection Hin as <-. right. lia.
    + right. cbn [heap] in Hge. rewrite length_app in Hge. cbn in Hge. lia.
Qed.


(** ** The frame of a call *)









End facts.
End GenericFacts.

(** * Facts about mcp_handles/df_abstractions.py *)
Module InMemoryFacts.
Import Pandas PandasFacts Memory MemoryFacts InMemory.

Ltac istep :=
  repeat progress
    (cbv beta iota;
     cbn [lift_key lift_sum lift_library exn_ordinary raised Exception
          heap sample_db data_handles draws];
     rewrite ?bind_run, ?gets_run, ?alloc_run, ?write_run, ?bind_handle_run,
       ?fresh_uuid_run, ?ret_run, ?try_except_run, ?raise_run).

Section facts.
Context {R : Runtime}.








(** an object changed in place, under the handle that stands for it *)
Definition with_written (w : world) (h : string) (obj : nat) (df : DataFrame) : world :=
  mkWorld (<[obj := df]> (heap w)) (sample_db w) (<[h := obj]> (data_handles w)) (draws w).





(** ** The worlds a call can end in *)


Ltac read_cases obj :=
  let df := fresh "cur" in
  let H := fresh "Hcur" in
  match goal with
  | |- context [read obj ?w] =>
      destruct (heap w !! obj) as [df|] eqn:H;
      [rewrite (read_run _ _ _ H)|rewrite (read_run_None _ _ H)]; istep
  end.




(** [combine_columns] given a label that is no column: the error names
    both labels it was given, and nothing changes. *)
Lemma combine_columns_missing (w : world) (h c1 c2 new sep : string)
    (obj : nat) (T : DataFrame) :
  data_handles w !! h = Some obj → heap w !! obj = Some T →
  Server.missing_from T [c1; c2] ≠ [] →
  combine_columns h c1 c2 new sep w = (Return (Error (Columns_not_found c1 c2 h)), w).
Proof.
  intros Hh HT Hmiss%ServerFacts.missing_pair_guard.
  unfold combine_columns. istep. rewrite Hh. istep. rewrite (read_run _ _ _ HT). istep.
  by rewrite Hmiss.
Qed.

End facts.
End InMemoryFacts.

(** * Properties of the persisted handle store *)
Module ServerSpec.
Import Pandas PandasFacts SetitemFacts Server ServerFacts.

Section spec.
Context {R : Runtime}.

Lemma resolve_insert_eq `{!RuntimeLaws R} hs j d h T :
  resolve (mkWorld (<[h := pickle_dumps T]> hs) j d) h = Some T.
Proof.
  unfold resolve. cbn [handles]. rewrite lookup_insert_eq. cbn.
  by rewrite pickle_roundtrip.
Qed.

(** C5. What [save_handle] writes under a token is what [load_handle]
    reads back under it right after: the same columns in the same order and
    the same rows. Each [save_handle] runs one insert-or-replace, one
    commit and then the verification read of the token it wrote. *)
Theorem save_then_load `{!RuntimeLaws R} (h : string) (T : DataFrame) (w : world) :
  (save_handle h T w).1 = Return () ∧
  (load_handle h (save_handle h T w).2).1 = Return (Some T) ∧
  journal (save_handle h T w).2 =
    journal w ++ [INSERT_OR_REPLACE h (pickle_dumps T); COMMIT; SELECT_dataframe h].
Proof.
  rewrite save_handle_run. cbn [fst snd]. rewrite load_handle_run. cbn [fst journal].
  by rewrite resolve_insert_eq.
Qed.

(** A call leaves the rows of table [handles] as they are or puts one row,
    replacing the row of that token if there is one. *)
Lemma run_writes_one (c : call) (w : world) :
  handles (run c w).2 = handles w ∨
  ∃ h b, handles (run c w).2 = <[h := b]> (handles w).
Proof.
  pose proof (run_shape c w) as H.
  destruct (run c w) as [[[t|m]|e] w']; cbn [snd].
  - destruct H as ([df ->] & _). eauto.
  - left. apply H.
  - left. apply H.
Qed.

Lemma run_keeps_bound (c : call) (w : world) (h : string) :
  is_Some (handles w !! h) → is_Some (handles (run c w).2 !! h).
Proof.
  intros Hh. destruct (run_writes_one c w) as [->|(h' & b & ->)]; [done|].
  rewrite lookup_insert. case_decide; eauto.
Qed.

Lemma run_all_keeps_bound (cs : list call) (w : world) (h : string) :
  is_Some (handles w !! h) → is_Some (handles (run_all cs w) !! h).
Proof.
  revert w. induction cs as [|c cs IH]; intros w Hh; [done|].
  cbn [run_all]. apply IH. by apply run_keeps_bound.
Qed.

(** C9. A token that resolves keeps resolving after any sequence of calls:
    no call removes a row, and what a call writes is one insert-or-replace
    of a single token. *)
Theorem handles_are_immortal :
  (∀ (c : call) (w : world),
     handles (run c w).2 = handles w ∨
     ∃ h b, handles (run c w).2 = <[h := b]> (handles w)) ∧
  (∀ (cs : list call) (w : world) (h : string),
     is_Some (resolve w h) → is_Some (resolve (run_all cs w) h)).
Proof.
  split; [apply run_writes_one|].
  intros cs w h. unfold resolve. rewrite !fmap_is_Some. apply run_all_keeps_bound.
Qed.


(** the text of a cell, as the specification's "stringified" reads: the
    decimal numeral of an integer, the digits of a float, a text as it is,
    [True] and [False], [nan] for the missing-value marker *)
Definition stringified (v : value) : string :=
  match v with
  | VInt z => pretty z
  | VFloat digits => digits
  | VStr s => s
  | VBool b => if b then "True" else "False"
  | NaN => "nan"
  end.

(** the cell of the combined column in a row: the text of the cell at
    [i1], the separator, the text of the cell at [i2] *)
Definition combined (i1 i2 : nat) (sep : string) (r : list value) : value :=
  VStr (stringified (cell r i1) +:+ sep +:+ stringified (cell r i2)).

Lemma str_stringified v : str v = stringified v.
Proof. by destruct v as [z|f|s|[]|]. Qed.

Lemma combined_column (T : DataFrame) i1 i2 sep (f : list value → value → list value) :
  zip_with f (rows T)
    (str_concat ((λ r, cell r i1) <$> rows T) sep ((λ r, cell r i2) <$> rows T))
  = (λ r, f r (combined i1 i2 sep r)) <$> rows T.
Proof.
  rewrite str_concat_cells, zip_with_fmap_same. apply list_fmap_ext.
  intros _ r _. cbv beta. unfold combined. by rewrite !str_stringified.
Qed.


(** ** Errors *)

(** X2. A call that answers with an error, or raises, leaves table
    [handles] as it was and draws no token. *)
Lemma error_leaves_store (c : call) (w : world) :
  match (run c w).1 with
  | Return (Handle _) => True
  | _ => handles (run c w).2 = handles w ∧ draws (run c w).2 = draws w
  end.
Proof.
  pose proof (run_shape c w) as H.
  destruct (run c w) as [[[t|m]|e] w']; cbn [fst snd]; done.
Qed.

(** X1. A call given a token that is not a key of table [handles] answers
    with an error and leaves the table as it was. *)
Lemma unknown_handle_is_an_error (c : call) (w : world) (h : string) :
  h ∈ input_handles c →
  handles w !! h = None →
  ∃ m, (run c w).1 = Return (Error m) ∧ handles (run c w).2 = handles w.
Proof.
  intros Hin Hh.
  destruct c; cbn [input_handles] in Hin;
    repeat (apply elem_of_cons in Hin as [->|Hin]); try (by apply elem_of_nil in Hin);
    cbn [run].
  - unfold combine_columns. mstep. unfold resolve. rewrite Hh. mstep. eauto.
  - unfold join_dataframes. mstep. unfold resolve. cbn [handles]. rewrite Hh. mstep.
    destruct (handles w !! handle2); mstep; eauto.
  - unfold join_dataframes. mstep. unfold resolve. cbn [handles]. rewrite Hh. mstep.
    destruct (handles w !! handle1); mstep; eauto.
  - unfold select_columns. mstep. unfold resolve. rewrite Hh. mstep. eauto.
  - unfold filter_rows. mstep. unfold resolve. rewrite Hh. mstep. eauto.
  - unfold drop_columns. mstep. unfold resolve. rewrite Hh. mstep. eauto.
  - unfold remove_duplicates. mstep. unfold resolve. rewrite Hh. mstep. eauto.
  - unfold distinct_rows. mstep. unfold resolve. rewrite Hh. mstep. eauto.
  - unfold get_schema. mstep. unfold resolve. rewrite Hh. mstep. eauto.
  - unfold group_by. mstep. unfold resolve. rewrite Hh. mstep. eauto.
Qed.

(** ** Column validation *)

(** the column labels a call refers to and checks before acting *)
Definition referenced (c : call) : list string :=
  match c with
  | Select_columns _ cols => cols
  | Distinct_rows _ (Some cols) => cols
  | Combine_columns _ c1 c2 _ _ => [c1; c2]
  | Group_by _ g a => g ++ a.*1
  | _ => []
  end.

(** the column labels an error text spells out *)
Definition named (m : message) : list string :=
  match m with
  | Columns_not_found l | Group_columns_not_found l
  | Aggregation_columns_not_found l => l
  | _ => []
  end.

(** the column labels an error text of the in-memory module spells out *)
Definition named_in_memory (m : InMemory.message) : list string :=
  match m with
  | InMemory.Columns_not_found col1_name col2_name _ => [col1_name; col2_name]
  | _ => []
  end.

(** C3 (as amended). When a call refers to a column the table does not
    have, it answers with an error, stores nothing and draws no token.
    [select_columns] and [distinct_rows] name every missing column in the
    error; [group_by] names every missing group column or, when no group
    column is missing, every missing aggregation column. [combine_columns]
    of the in-memory module names the two columns it was given, the
    missing ones among them, and changes nothing. *)
Theorem column_validation :
  (∀ (c : call) (w : world) (h : string) (T : DataFrame),
     input_handles c = [h] →
     resolve w h = Some T →
     missing_from T (referenced c) ≠ [] →
     ∃ m w',
       run c w = (Return (Error m), w') ∧
       handles w' = handles w ∧ draws w' = draws w ∧
       match c with
       | Select_columns _ _ | Distinct_rows _ _ =>
           named m = missing_from T (referenced c)
       | Group_by _ g a =>
           named m = match missing_from T g with
                     | [] => missing_from T a.*1
                     | l => l
                     end
       | _ => True
       end) ∧
  (∀ (w : Memory.world) (h c1 c2 new sep : string) (obj : nat) (T : DataFrame),
     Memory.data_handles w !! h = Some obj →
     Memory.heap w !! obj = Some T →
     missing_from T [c1; c2] ≠ [] →
     ∃ m,
       InMemory.combine_columns h c1 c2 new sep w = (Return (InMemory.Error m), w) ∧
       ∀ col, col ∈ missing_from T [c1; c2] → col ∈ named_in_memory m).
Proof.
  split.
  - intros c w h T Hh HT Hmiss.
    destruct c; cbn [input_handles referenced] in *; try done;
      injection Hh as ->; cbn [run].
    + apply missing_pair_guard in Hmiss.
      unfold combine_columns. mstep. rewrite HT. mstep. rewrite Hmiss. mstep.
      eauto 10.
    + unfold select_columns. mstep. rewrite HT. mstep.
      destruct (missing_from T cols) as [|x l] eqn:E; [done|]. mstep. eauto 10.
    + destruct cols as [cols|]; [|done].
      unfold distinct_rows. mstep. rewrite HT. mstep.
      destruct cols as [|c0 cols]; [done|]. mstep.
      destruct (missing_from T (c0 :: cols)) as [|x l] eqn:E; [done|]. mstep. eauto 10.
    + unfold group_by. mstep. rewrite HT. mstep.
      unfold missing_from, missing_from_cols in Hmiss. rewrite filter_app in Hmiss.
      fold (missing_from_cols (columns T) group_columns) in Hmiss.
      fold (missing_from_cols (columns T) agg_dict.*1) in Hmiss.
      fold (missing_from T group_columns) in Hmiss.
      fold (missing_from T agg_dict.*1) in Hmiss.
      destruct (missing_from T group_columns) as [|x l] eqn:E; mstep; [|eauto 10].
      destruct (missing_from T agg_dict.*1) as [|x l] eqn:E'; [done|]. mstep. eauto 10.
  - intros w h c1 c2 new sep obj T Hh HT Hmiss. eexists. split.
    + by apply (InMemoryFacts.combine_columns_missing w h c1 c2 new sep obj T).
    + intros col Hcol. cbn [named_in_memory].
      unfold missing_from, missing_from_cols in Hcol.
      by apply list_elem_of_filter in Hcol as [_ Hcol].
Qed.

(** ** Distinct rows *)

(** C6 (as amended). [distinct_rows] with a non-empty list of existing
    columns stores, under a new token, the projection of the table onto the
    listed columns without the rows that repeat an earlier row of the
    projection: the first occurrence stays. The projection [df[columns]]
    has the rows of the table in their order; for a table without a
    repeated label it has the listed labels in the listed order, each row
    holding the cells of the listed columns and no other. *)
Theorem distinct_rows_projects `{!RuntimeLaws R}
    (w : world) (h : string) (T : DataFrame) (cols : list string) :
  resolve w h = Some T →
  cols ≠ [] →
  Forall (λ c, c ∈ columns T) cols →
  ∃ P w',
    select T cols = Some P ∧
    length (rows P) = length (rows T) ∧
    (NoDup (columns T) →
       columns P = cols ∧
       ∃ ps, Forall2 (λ c p, columns T !! p = Some c) cols ps ∧
             rows P = (λ r, cell r <$> ps) <$> rows T) ∧
    distinct_rows h (Some cols) w = (Return (Handle (uuid4 (draws w))), w') ∧
    resolve w' (uuid4 (draws w))
    = Some (mkDF (columns P) (RowFacts.without_repeats (rows P))).
Proof.
  intros HT Hne Hall.
  destruct (RowFacts.select_Some T cols Hall) as (P & HP & Hlen & Hunique).
  exists P. eexists. repeat (split; [done|]).
  unfold distinct_rows. mstep. rewrite HT. mstep.
  destruct cols as [|c0 cols]; [done|]. mstep.
  apply RowFacts.missing_from_nil in Hall. unfold missing_from. rewrite Hall. mstep.
  rewrite HP. mstep. split; [done|].
  rewrite resolve_insert_eq. f_equal. apply RowFacts.drop_duplicates_spec.
  by eapply RowFacts.select_columns_nonempty.
Qed.

(** ** Joins *)

Lemma parse_how_None how :
  how ∉ ["inner"; "left"; "right"; "outer"] → parse_how how = None.
Proof.
  rewrite !not_elem_of_cons. intros (? & ? & ? & ? & _).
  unfold parse_how. by rewrite !decide_False.
Qed.

(** C4. Given two bound handles whose tables both have the join column,
    [join_dataframes] with a join kind other than inner, left, right and
    outer raises the error of [pd.merge]; it returns no error value. When
    the join column is missing on a side it returns the join-column error.
    Nothing is stored either way. *)
Theorem join_kind_unchecked (w : world) (h1 h2 on how : string) (T1 T2 : DataFrame) :
  resolve w h1 = Some T1 →
  resolve w h2 = Some T2 →
  (on ∈ columns T1 → on ∈ columns T2 → how ∉ ["inner"; "left"; "right"; "outer"] →
   ∃ e w', join_dataframes h1 h2 on how w = (Raise e, w') ∧ handles w' = handles w) ∧
  (on ∉ columns T1 ∨ on ∉ columns T2 →
   ∃ w', join_dataframes h1 h2 on how w
         = (Return (Error Join_column_not_found_unnamed), w') ∧
         handles w' = handles w).
Proof.
  intros H1 H2. split.
  - intros Hc1%has_column_true Hc2%has_column_true Hhow%parse_how_None.
    unfold join_dataframes. mstep. unfold resolve in *. cbn [handles].
    rewrite H1, H2. mstep. rewrite Hc1, Hc2. cbn [negb orb]. mstep.
    unfold merge. rewrite Hhow. mstep. eauto 10.
  - intros Hc. unfold join_dataframes. mstep. unfold resolve in *. cbn [handles].
    rewrite H1, H2. mstep.
    assert (negb (has_column T1 on) || negb (has_column T2 on) = true) as ->.
    { unfold has_column. destruct Hc as [Hc|Hc];
        rewrite (bool_decide_eq_false_2 _ Hc); [done|by rewrite orb_true_r]. }
    mstep. eauto.
Qed.




End spec.
End ServerSpec.

(** * Properties of the generic server *)
Module GenericSpec.
Import Pandas Memory MemoryFacts Generic GenericFacts.

Section spec.
Context {R : Runtime} {I : Interpreter}.

Lemma store_outputs_missing alias ls acc w :
  (∀ obj, ls !! alias ≠ Some (Frame obj)) →
  ∃ m, store_outputs [alias] ls acc w = (Return (inl m), w) ∧
       (m = Output_alias_not_found alias ∨
        ∃ type_name, m = Output_not_a_dataframe alias type_name).
Proof.
  intros Hno. cbn [store_outputs].
  destruct (ls !! alias) as [[obj|t]|] eqn:E; [by destruct (Hno obj)|..];
    eexists; (split; [reflexivity|]); eauto.
Qed.

Lemma store_outputs_frame alias outs ls acc w obj :
  ls !! alias = Some (Frame obj) →
  store_outputs (alias :: outs) ls acc w =
  store_outputs outs ls (<[alias := uuid4 (draws w)]> acc)
    (mkWorld (heap w) (sample_db w)
       (<[uuid4 (draws w) := obj]> (data_handles w)) (S (draws w))).
Proof. intros H. cbn [store_outputs]. rewrite H. by gstep. Qed.

(** C1. [execute_pandas_code] asked for the outputs [a] and [b], after a
    run that leaves a DataFrame in [a] and none in [b] ([b] missing, or not
    a DataFrame): the call returns the error about [b], and [data_handles]
    has a handle more than before the call, the one made for [a]. *)
Theorem failed_outputs_leave_a_handle (code : string) (ins : list (string * string))
    (a b : string) (w w1 : world) (ls ls' : gmap string pyval)
    (hp : list DataFrame) (obj : nat) :
  load_inputs ins ∅ w = (Return (inr ls), w1) →
  exec code (heap w1) ls = (inr ls', hp) →
  ls' !! a = Some (Frame obj) →
  (∀ o, ls' !! b ≠ Some (Frame o)) →
  data_handles w !! uuid4 (draws w) = None →
  ∃ m w',
    execute_pandas_code code ins [a; b] w = (Return (inl m), w') ∧
    (m = Output_alias_not_found b ∨ ∃ type_name, m = Output_not_a_dataframe b type_name) ∧
    data_handles w' = <[uuid4 (draws w) := obj]> (data_handles w) ∧
    data_handles w' ≠ data_handles w.
Proof.
  intros Hload Hexec Ha Hb Hfresh.
  destruct (load_inputs_spec ins ∅ w) as (extra & _ & _ & Hd & Hn & _).
  rewrite Hload in Hd, Hn. cbn [snd] in Hd, Hn.
  unfold execute_pandas_code. rewrite bind_run, Hload. cbv beta iota.
  rewrite bind_run, try_except_run, bind_run. unfold run_code. rewrite Hexec.
  gstep. rewrite (store_outputs_frame a [b] ls' ∅ _ obj Ha).
  cbn [heap sample_db data_handles draws app].
  destruct (store_outputs_missing b ls' (<[a := uuid4 (draws w1)]> ∅)
              (mkWorld hp (sample_db w1)
                 (<[uuid4 (draws w1) := obj]> (data_handles w1)) (S (draws w1))) Hb)
    as (m & -> & Hm).
  exists m. eexists. split; [done|]. split; [done|]. cbn [data_handles].
  rewrite Hd, Hn. split; [done|].
  intros Heq. apply (f_equal (λ d, d !! uuid4 (draws w))) in Heq.
  rewrite lookup_insert_eq, Hfresh in Heq. done.
Qed.

(** ** Materializing *)

Lemma default_n_twice n : default_n (Int (default_n n)) = default_n n.
Proof.
  destruct n as [n|]; cbn [default_n]; repeat case_decide; try done; lia.
Qed.

Lemma materialize_dataframe_run h format n w :
  materialize_dataframe h format n w =
  materialize_dataframe h format (Int (default_n n)) w.
Proof. unfold materialize_dataframe. by rewrite default_n_twice. Qed.

Lemma head_len df n :
  (0 ≤ n)%Z → len (head df n) = Z.min n (len df).
Proof.
  intros Hn. unfold head, len. rewrite decide_True by done. cbn [rows].
  rewrite length_take. lia.
Qed.

(** What holds of C7: a row count that is no positive integer counts as 5,
    an unknown format is answered with the invalid-format error, and
    [full_string] shows at most 1000 rows. *)
Lemma materialize_defaults_and_full_cap h w obj df :
  data_handles w !! h = Some obj → heap w !! obj = Some df →
  (∀ format n, (n ≤ 0)%Z →
     materialize_dataframe h format (Int n) w = materialize_dataframe h format (Int 5) w) ∧
  (∀ format,
     materialize_dataframe h format NotInt w = materialize_dataframe h format (Int 5) w) ∧
  (∀ format n,
     format ∉ ["head_string"; "tail_string"; "sample_string"; "full_string";
               "json_records"; "json_split"; "csv"] →
     materialize_dataframe h format n w = (Return (inl (Invalid_format format)), w)) ∧
  (∀ n, ∃ r, materialize_dataframe h "full_string" n w = (Return (inr r), w) ∧
             (len (rendered r) ≤ 1000)%Z).
Proof.
  intros Hh Hobj. split; [|split; [|split]].
  - intros format n Hn. rewrite (materialize_dataframe_run h format (Int n) w).
    cbn [default_n]. by rewrite decide_True.
  - intros format. by rewrite (materialize_dataframe_run h format NotInt w).
  - intros format n. rewrite !not_elem_of_cons. intros (?&?&?&?&?&?&?&_).
    unfold materialize_dataframe. gstep. rewrite Hh. gstep.
    rewrite (read_run _ _ _ Hobj). gstep. by rewrite !decide_False.
  - intros n. unfold materialize_dataframe. gstep. rewrite Hh. gstep.
    rewrite (read_run _ _ _ Hobj). gstep.
    rewrite !(decide_False (P := "full_string" = _)) by discriminate.
    rewrite (decide_True (P := "full_string" = "full_string")) by done.
    case_decide; gstep; eexists; (split; [done|]); cbn [rendered].
    + rewrite head_len by done. unfold MAX_ROWS_FULL. lia.
    + unfold MAX_ROWS_FULL in *. lia.
Qed.

(** C7. [materialize_dataframe] with format [head_string] shows the first
    [n] rows whatever [n] is: asked for more than 1000 rows of a table that
    has more than 1000, it shows more than 1000. *)
Theorem head_string_is_not_capped (h : string) (n : Z) (w : world)
    (obj : nat) (df : DataFrame) :
  data_handles w !! h = Some obj →
  heap w !! obj = Some df →
  (1000 < n)%Z →
  (1000 < len df)%Z →
  ∃ shown,
    materialize_dataframe h "head_string" (Int n) w = (Return (inr (To_string shown)), w) ∧
    len shown = Z.min n (len df) ∧
    (1000 < len shown)%Z.
Proof.
  intros Hh Hobj Hn Hlen. exists (head df n).
  unfold materialize_dataframe. gstep. rewrite Hh. gstep.
  rewrite (read_run _ _ _ Hobj). gstep.
  rewrite (decide_True (P := "head_string" = "head_string")) by done. gstep.
  cbn [default_n]. rewrite decide_False by lia.
  split; [done|]. rewrite head_len by lia. lia.
Qed.

(** ** Copies *)



End spec.
End GenericSpec.

(** * Properties of the in-memory server *)
Module InMemorySpec.
Import Pandas PandasFacts Memory MemoryFacts InMemory InMemoryFacts.

Section spec.
Context {R : Runtime}.

(** X24. The join kind is checked here, before [pd.merge] is called: a
    kind other than the four gets the invalid-join-type error, and the
    world stays as it was. *)
Lemma join_kind_checked (w : world) (h1 h2 on how : string) (o1 o2 : nat)
    (T1 T2 : DataFrame) :
  data_handles w !! h1 = Some o1 → heap w !! o1 = Some T1 →
  data_handles w !! h2 = Some o2 → heap w !! o2 = Some T2 →
  on ∈ columns T1 → on ∈ columns T2 →
  how ∉ ["inner"; "left"; "right"; "outer"] →
  join_dataframes h1 h2 on how w = (Return (Error (Invalid_join_type how valid_joins)), w).
Proof.
  intros Hh1 Ho1 Hh2 Ho2 Hc1%has_column_true Hc2%has_column_true Hhow.
  unfold join_dataframes. istep. rewrite Hh1, Hh2. istep.
  rewrite (read_run _ _ _ Ho1). istep. rewrite (read_run _ _ _ Ho2). istep.
  rewrite Hc1, Hc2. cbn [negb orb]. rewrite bool_decide_eq_true_2; [done|].
  unfold valid_joins. rewrite !not_elem_of_cons in Hhow |- *. tauto.
Qed.

(** X23. [get_top_n_rows] shows at most [MAX_ROWS] rows, and answers a row
    count that is not positive with an error. *)
Lemma get_top_n_rows_capped (w : world) (h : string) (n : Z) (obj : nat) (T : DataFrame) :
  data_handles w !! h = Some obj → heap w !! obj = Some T →
  ((n ≤ 0)%Z → get_top_n_rows h n w = (Return (Error N_must_be_positive), w)) ∧
  ((0 < n)%Z →
   ∃ shown, get_top_n_rows h n w = (Return (To_string shown), w) ∧
            len shown = Z.min (Z.min n 1000) (len T)).
Proof.
  intros Hh Hobj. unfold get_top_n_rows. istep. rewrite Hh. istep. split; intros Hn.
  - by rewrite decide_True.
  - rewrite decide_False by lia. istep. rewrite (read_run _ _ _ Hobj). istep.
    eexists. split; [done|]. unfold MAX_ROWS.
    case_decide; rewrite GenericSpec.head_len by lia; lia.
Qed.



End spec.
End InMemorySpec.

(** * Copies keep the tables apart *)
Module Isolation.
Import Pandas Memory MemoryFacts.

Section spec.
Context {R : Runtime} {I : Generic.Interpreter}.



End spec.
End Isolation.

(** * More facts about the pandas model *)
Module TableFacts.
Import Pandas PandasFacts SetitemFacts RowFacts.

Lemma first_occurrences_elem seen (l : list (list value)) x :
  x ∈ first_occurrences seen l ↔ x ∈ l ∧ x ∉ seen.
Proof.
  revert seen. induction l as [|r l IH]; intros seen; cbn [first_occurrences].
  - rewrite elem_of_nil. tauto.
  - destruct (decide (r ∈ seen)) as [Hr|Hr].
    + rewrite IH, elem_of_cons. split; [tauto|].
      intros [[Heq|?] ?]; [subst x; tauto|tauto].
    + rewrite !elem_of_cons, IH, not_elem_of_cons. split.
      * intros [Heq|(? & ? & ?)]; [subst x|]; tauto.
      * intros [[Heq|?] ?]; [tauto|]. destruct (decide (x = r)); tauto.
Qed.

Lemma first_occurrences_NoDup seen (l : list (list value)) :
  NoDup (first_occurrences seen l).
Proof.
  revert seen. induction l as [|r l IH]; intros seen; cbn [first_occurrences].
  - constructor.
  - destruct (decide (r ∈ seen)); [apply IH|].
    constructor; [|apply IH]. rewrite first_occurrences_elem, not_elem_of_cons. tauto.
Qed.

Lemma first_occurrences_sublist seen (l : list (list value)) :
  first_occurrences seen l `sublist_of` l.
Proof.
  revert seen. induction l as [|r l IH]; intros seen; cbn [first_occurrences]; [done|].
  destruct (decide (r ∈ seen)); [apply sublist_cons|apply sublist_skip]; apply IH.
Qed.

Lemma first_occurrences_id seen (l : list (list value)) :
  NoDup l → (∀ x, x ∈ l → x ∉ seen) → first_occurrences seen l = l.
Proof.
  revert seen. induction l as [|r l IH]; intros seen Hnd Hseen; [done|].
  apply NoDup_cons in Hnd as [Hr Hnd]. cbn [first_occurrences].
  rewrite decide_False by (apply Hseen; by left). f_equal. apply IH; [done|].
  intros x Hx. rewrite not_elem_of_cons. split; [by intros ->|].
  apply Hseen. by right.
Qed.

Lemma drop_duplicates_columns df : columns (drop_duplicates df) = columns df.
Proof. unfold drop_duplicates. by destruct (is_empty df). Qed.

(** a table without columns is returned as it is, whatever its rows *)
Lemma drop_duplicates_no_columns df : columns df = [] → drop_duplicates df = df.
Proof.
  intros Hc. unfold drop_duplicates, is_empty. by rewrite (bool_decide_eq_true_2 _ Hc).
Qed.

Lemma drop_duplicates_NoDup df : columns df ≠ [] → NoDup (rows (drop_duplicates df)).
Proof.
  intros Hc. rewrite drop_duplicates_spec by done. cbn [rows].
  rewrite <-first_occurrences_spec. apply first_occurrences_NoDup.
Qed.

Lemma drop_duplicates_elem df r : r ∈ rows (drop_duplicates df) ↔ r ∈ rows df.
Proof.
  unfold drop_duplicates. destruct (is_empty df); [done|]. cbn [rows].
  rewrite first_occurrences_elem. pose proof (not_elem_of_nil r). tauto.
Qed.

Lemma drop_duplicates_sublist df : rows (drop_duplicates df) `sublist_of` rows df.
Proof.
  unfold drop_duplicates. destruct (is_empty df); [done|]. apply first_occurrences_sublist.
Qed.

Lemma drop_duplicates_twice df : drop_duplicates (drop_duplicates df) = drop_duplicates df.
Proof.
  destruct (decide (columns df = [])) as [Hc|Hc].
  - by rewrite !(drop_duplicates_no_columns df Hc).
  - rewrite (drop_duplicates_spec df Hc).
    rewrite drop_duplicates_spec by done. cbn [columns rows]. f_equal.
    rewrite <-!first_occurrences_spec.
    apply first_occurrences_id; [apply first_occurrences_NoDup|].
    intros x _. apply not_elem_of_nil.
Qed.

Lemma mask_fmap_filter {A} (P : A → Prop) `{∀ x, Decision (P x)} (l : list A) :
  mask ((λ x, bool_decide (P x)) <$> l) l = filter P l.
Proof.
  induction l as [|x l IH]; [done|]. cbn [fmap list_fmap mask]. rewrite filter_cons.
  destruct (decide (P x)) as [Hx|Hx].
  - rewrite bool_decide_eq_true_2 by done. by rewrite IH.
  - rewrite bool_decide_eq_false_2 by done. apply IH.
Qed.

Lemma mask_all_true {A} (m : list bool) (l : list A) :
  Forall (λ b, b = true) m → length l ≤ length m → mask m l = l.
Proof.
  intros Hm. revert l. induction Hm as [|b m -> _ IH]; intros [|x l] Hl; cbn in *;
    try done; try lia.
  f_equal. apply IH. lia.
Qed.

Lemma drop_columns_eq df cols :
  columns (drop df cols) = filter (λ c, c ∉ cols) (columns df).
Proof. unfold drop, keep_mask. cbn [columns]. apply mask_fmap_filter. Qed.

Lemma drop_length df cols : length (rows (drop df cols)) = length (rows df).
Proof. unfold drop. cbn [rows]. by rewrite length_fmap. Qed.

Lemma drop_absent df cols :
  wf df → (∀ c, c ∈ cols → c ∉ columns df) → drop df cols = df.
Proof.
  intros Hwf Habs. destruct df as [cs rs]. unfold drop, keep_mask, wf in *.
  cbn [columns rows] in *.
  assert (Forall (λ b, b = true) ((λ c, bool_decide (c ∉ cols)) <$> cs)) as Hm.
  { rewrite Forall_fmap. apply Forall_forall. intros c Hc. cbn.
    apply bool_decide_eq_true_2. intros Hin. by apply (Habs c). }
  f_equal.
  - apply mask_all_true; [done|]. by rewrite length_fmap.
  - rewrite <-(list_fmap_id rs) at 2. apply list_fmap_ext. intros i r Hr. cbn.
    apply mask_all_true; [done|]. rewrite length_fmap.
    rewrite Forall_forall in Hwf. rewrite (Hwf r); [done|].
    by eapply list_elem_of_lookup_2.
Qed.

Lemma select_all df : wf df → NoDup (columns df) → select df (columns df) = Some df.
Proof.
  intros Hwf Hnd.
  destruct (select_Some df (columns df)) as (P & HP & _ & Hu).
  { by apply Forall_forall. }
  destruct (Hu Hnd) as (Hcols & ps & Hps & Hrows). rewrite HP. f_equal.
  assert (ps = seq 0 (length (columns df))) as ->.
  { apply list_eq. intros k. destruct (columns df !! k) as [c|] eqn:Hk.
    - destruct (Forall2_lookup_l _ _ _ _ _ Hps Hk) as (p & Hp & Hcp).
      rewrite Hp, (NoDup_lookup _ _ _ _ Hnd Hcp Hk). symmetry.
      apply lookup_seq_lt. by eapply lookup_lt_Some.
    - apply lookup_ge_None in Hk. rewrite lookup_seq_ge by lia.
      apply lookup_ge_None. by rewrite <-(Forall2_length _ _ _ Hps). }
  destruct P as [pc pr], df as [cs rs]. unfold wf in Hwf. cbn [columns rows] in *.
  subst pc pr. f_equal. rewrite <-(list_fmap_id rs) at 2. apply list_fmap_ext.
  intros _ r Hr%list_elem_of_lookup_2. cbn. rewrite Forall_forall in Hwf.
  specialize (Hwf r Hr). apply list_eq. intros i. rewrite list_lookup_fmap.
  destruct (decide (i < length cs)) as [Hi|Hi].
  - rewrite lookup_seq_lt by done. cbn. unfold cell.
    destruct (lookup_lt_is_Some_2 r i) as [v Hv]; [lia|]. by rewrite Hv.
  - rewrite lookup_seq_ge by lia. cbn. symmetry. apply lookup_ge_None. lia.
Qed.

(** a column that [drop] keeps: where it goes, and that it keeps its
    cells *)
Lemma mask_keeps_cell (keep : string → bool) (cs : list string) c i :
  keep c = true → cs !! i = Some c →
  ∃ i', mask (keep <$> cs) cs !! i' = Some c ∧
        ∀ r : list value, length r = length cs →
                          cell (mask (keep <$> cs) r) i' = cell r i.
Proof.
  intros Hkeep. revert i. induction cs as [|x cs IH]; intros i Hi; [done|].
  cbn [fmap list_fmap mask]. destruct i as [|i]; cbn in Hi.
  - injection Hi as ->. rewrite Hkeep. exists 0. split; [done|].
    intros [|v r] Hr; [done|]. done.
  - destruct (IH i Hi) as (i' & Hi' & Hcell).
    destruct (keep x) eqn:Hkx.
    + exists (S i'). split; [done|]. intros [|v r] Hr; [done|].
      cbn in Hr. apply (Hcell r). lia.
    + exists i'. split; [done|]. intros [|v r] Hr; [done|].
      cbn in Hr. apply (Hcell r). lia.
Qed.

Lemma drop_keeps_cells df cols i c :
  wf df → columns df !! i = Some c → c ∉ cols →
  ∃ i', columns (drop df cols) !! i' = Some c ∧
        ∀ k r, rows df !! k = Some r →
               ∃ r', rows (drop df cols) !! k = Some r' ∧ cell r' i' = cell r i.
Proof.
  intros Hwf Hi Hc.
  destruct (mask_keeps_cell (λ x, bool_decide (x ∉ cols)) (columns df) c i)
    as (i' & Hi' & Hcell); [by apply bool_decide_eq_true_2|done|].
  exists i'. split; [exact Hi'|]. intros k r Hr. unfold drop. cbn [rows].
  rewrite list_lookup_fmap, Hr. cbn. eexists. split; [done|].
  apply Hcell. unfold wf in Hwf. rewrite Forall_forall in Hwf.
  apply Hwf. by eapply list_elem_of_lookup_2.
Qed.


End TableFacts.

(** * More properties of the persisted server *)
Module ServerMore.
Import Pandas PandasFacts SetitemFacts RowFacts TableFacts Server ServerFacts ServerSpec.

Section more.
Context {R : Runtime}.

(** ** Persisting *)

(** X3. Of two [save_handle] of one token the second wins: the token
    resolves to the second table, every other token resolves as before the
    two writes, and the rows of the table are those the second write alone
    would leave. *)
Theorem save_handle_last_write_wins {laws : RuntimeLaws R}
    (h : string) (T1 T2 : DataFrame) (w : world) :
  let w2 := (save_handle h T2 (save_handle h T1 w).2).2 in
  resolve w2 h = Some T2 ∧
  (∀ h', h' ≠ h → resolve w2 h' = resolve w h') ∧
  handles w2 = handles (save_handle h T2 w).2.
Proof.
  rewrite !save_handle_run. cbn [snd handles journal draws].
  split; [apply resolve_insert_eq|]. split.
  - intros h' Hne. unfold resolve. cbn [handles].
    by rewrite !lookup_insert_ne.
  - by rewrite insert_insert_eq.
Qed.

(** ** Tokens *)

(** the tokens a session's answers hand out for new tables *)
Definition minted (l : list (call * outcome reply)) : list string :=
  l ≫= λ a, match a with
            | (c, Return (Handle t)) => if is_rebind c then [] else [t]
            | _ => []
            end.

Lemma draws_step (c : call) (w : world) : draws w ≤ draws (run c w).2.
Proof.
  pose proof (run_shape c w) as H.
  destruct (run c w) as [[[t|m]|e] w']; cbn [snd].
  - destruct H as (_ & H & _). destruct (is_rebind c); destruct H as [_ ->]; lia.
  - destruct H as [_ ->]. lia.
  - destruct H as [_ ->]. lia.
Qed.

Lemma minted_are_draws (cs : list call) (w : world) (t : string) :
  t ∈ minted (answers cs w) → ∃ i, draws w ≤ i ∧ t = uuid4 i.
Proof.
  revert w. induction cs as [|c cs IH]; intros w; cbn [answers]; unfold minted.
  - intros H. by apply elem_of_nil in H.
  - rewrite bind_cons, elem_of_app. fold (minted (answers cs (run c w).2)).
    pose proof (run_shape c w) as H. pose proof (draws_step c w) as Hd.
    intros [Ht|Ht].
    + destruct (run c w) as [[[t'|m]|e] w']; cbn [fst] in Ht;
        try (by apply elem_of_nil in Ht).
      destruct H as (_ & H & _). destruct (is_rebind c); [by apply elem_of_nil in Ht|].
      apply list_elem_of_singleton in Ht as ->. destruct H as [-> _]. eauto.
    + destruct (IH _ Ht) as (i & Hi & ->). exists i. split; [lia|done].
Qed.

(** X4. No token is handed out twice: the tokens that the calls of a
    session return for new tables are pairwise different (no two draws of
    [uuid4] giving the same token). *)
Theorem minted_tokens_differ {laws : RuntimeLaws R} (cs : list call) (w : world) :
  NoDup (minted (answers cs w)).
Proof.
  revert w. induction cs as [|c cs IH]; intros w; cbn [answers]; unfold minted.
  - constructor.
  - rewrite bind_cons. fold (minted (answers cs (run c w).2)).
    pose proof (run_shape c w) as H.
    pose proof (minted_are_draws cs (run c w).2) as Hlater.
    destruct (run c w) as [[[t|m]|e] w']; cbn [fst snd] in *; try apply IH.
    destruct H as (_ & H & _). destruct (is_rebind c); [apply IH|].
    destruct H as [-> Hd]. cbn [app]. constructor; [|apply IH].
    intros (i & Hi & Heq%uuid4_inj)%Hlater. lia.
Qed.

(** ** The tools *)

Lemma lookup_table_is_Some (db : list (string * DataFrame)) (name : string) :
  is_Some (lookup_table db name) ↔ name ∈ db.*1.
Proof.
  unfold lookup_table. split.
  - intros [T HT]. destruct (list_find _ db) as [[i [n df]]|] eqn:E; [|done].
    apply list_find_Some in E as (Hi & <- & _).
    apply list_elem_of_fmap. exists (n, df). split; [done|].
    by eapply list_elem_of_lookup_2.
  - intros ([n df] & -> & Hin)%list_elem_of_fmap.
    destruct (list_find (λ p, p.1 = (n, df).1) db) as [[i p]|] eqn:E; [by eexists|].
    rewrite list_find_None, Forall_forall in E. by destruct (E _ Hin).
Qed.

(** X5. [query_database] answers with a handle exactly for the names
    [get_db_tables] lists. The handle is a new token that resolves to the
    table of [sample_db]; for any other name the answer is the
    table-not-found error and nothing is stored. *)
Theorem query_database_known_tables {laws : RuntimeLaws R} (name : string) (w : world) :
  (name ∈ get_db_tables →
   ∃ T w', lookup_table sample_db name = Some T ∧
           query_database name w = (Return (Handle (uuid4 (draws w))), w') ∧
           resolve w' (uuid4 (draws w)) = Some T) ∧
  (name ∉ get_db_tables →
   ∃ w', query_database name w = (Return (Error (Table_not_found name)), w') ∧
         handles w' = handles w).
Proof.
  unfold get_db_tables. rewrite <-lookup_table_is_Some. split.
  - intros [T HT]. exists T. unfold query_database. rewrite HT. mstep.
    eexists. split; [done|]. split; [done|]. apply resolve_insert_eq.
  - rewrite <-eq_None_not_Some. intros HT. unfold query_database. rewrite HT. mstep.
    eauto.
Qed.

(** X6. A successful [select_columns] stores, under a new token, the
    projection [df[columns]]: it has the rows of the input in their order.
    For an input without a repeated label it has the listed labels in the
    listed order, each row holding the cells of the listed columns; and
    listing all the labels of such an input in their order stores the input
    itself (a table with one cell per column in each row). *)
Theorem select_columns_projects {laws : RuntimeLaws R}
    (w : world) (h : string) (T : DataFrame) (cols : list string) :
  resolve w h = Some T →
  Forall (λ c, c ∈ columns T) cols →
  ∃ P w',
    select_columns h cols w = (Return (Handle (uuid4 (draws w))), w') ∧
    resolve w' (uuid4 (draws w)) = Some P ∧
    length (rows P) = length (rows T) ∧
    (NoDup (columns T) →
       columns P = cols ∧
       ∃ ps, Forall2 (λ c p, columns T !! p = Some c) cols ps ∧
             rows P = (λ r, cell r <$> ps) <$> rows T) ∧
    (wf T → NoDup (columns T) → cols = columns T → P = T).
Proof.
  intros HT Hall.
  destruct (select_Some T cols Hall) as (P & HP & Hlen & Hunique).
  exists P. unfold select_columns. mstep. rewrite HT. mstep.
  apply missing_from_nil in Hall. unfold missing_from. rewrite Hall. mstep.
  rewrite HP. mstep. eexists. split; [done|]. rewrite resolve_insert_eq.
  repeat (split; [done|]).
  intros Hwf Hnd ->. rewrite select_all in HP by done. by injection HP.
Qed.

(** X7. [drop_columns] never answers a bound handle with an error: it
    stores, under a new token, the input without the listed columns, the
    other columns in their order and all the rows; a column that is not
    listed is a column of the stored table and has, in every row, the cell
    it had (in an input with one cell per column in each row). Names that
    are no column are ignored: when none of the names is a column the
    stored table is the input, and when every column is listed the stored
    table has no column and as many rows as the input. *)
Theorem drop_columns_ignores_unknown {laws : RuntimeLaws R}
    (w : world) (h : string) (T : DataFrame) (cols : list string) :
  resolve w h = Some T →
  ∃ D w',
    drop_columns h cols w = (Return (Handle (uuid4 (draws w))), w') ∧
    resolve w' (uuid4 (draws w)) = Some D ∧
    columns D = filter (λ c, c ∉ cols) (columns T) ∧
    length (rows D) = length (rows T) ∧
    (wf T → ∀ i c, columns T !! i = Some c → c ∉ cols →
       ∃ i', columns D !! i' = Some c ∧
             ∀ k r, rows T !! k = Some r →
                    ∃ r', rows D !! k = Some r' ∧ cell r' i' = cell r i) ∧
    (wf T → (∀ c, c ∈ cols → c ∉ columns T) → D = T) ∧
    ((∀ c, c ∈ columns T → c ∈ cols) → columns D = []).
Proof.
  intros HT. exists (drop T cols). unfold drop_columns. mstep. rewrite HT. mstep.
  eexists. split; [done|]. rewrite resolve_insert_eq. split; [done|].
  split; [apply drop_columns_eq|]. split; [apply drop_length|].
  split; [intros; by apply drop_keeps_cells|].
  split; [apply drop_absent|].
  intros Hall. rewrite drop_columns_eq. apply elem_of_nil_inv. intros c.
  rewrite list_elem_of_filter. intros [Hc Hin]. eauto.
Qed.

(** X8. [remove_duplicates] stores, under a new token, the input with
    each row once: every row of the input present, the rows in the order of
    the input, and (the input having a column) no row twice. An input
    without columns is stored as it is. Removing duplicates from the result
    changes nothing, and [distinct_rows] without columns (or with an empty
    list) is [remove_duplicates]. *)
Theorem remove_duplicates_keeps_each_row_once {laws : RuntimeLaws R}
    (w : world) (h : string) (T : DataFrame) :
  resolve w h = Some T →
  ∃ D w',
    remove_duplicates h w = (Return (Handle (uuid4 (draws w))), w') ∧
    resolve w' (uuid4 (draws w)) = Some D ∧
    columns D = columns T ∧
    (columns T ≠ [] → NoDup (rows D)) ∧
    (columns T = [] → D = T) ∧
    (∀ r, r ∈ rows D ↔ r ∈ rows T) ∧
    rows D `sublist_of` rows T ∧
    (∃ w'', remove_duplicates (uuid4 (draws w)) w'
            = (Return (Handle (uuid4 (draws w'))), w'') ∧
            resolve w'' (uuid4 (draws w')) = Some D) ∧
    distinct_rows h None w = remove_duplicates h w ∧
    distinct_rows h (Some []) w = remove_duplicates h w.
Proof.
  intros HT. exists (drop_duplicates T).
  unfold remove_duplicates at 1. mstep. rewrite HT. mstep.
  eexists. split; [done|]. rewrite resolve_insert_eq. split; [done|].
  split; [apply drop_duplicates_columns|].
  split; [apply drop_duplicates_NoDup|].
  split; [apply drop_duplicates_no_columns|].
  split; [apply drop_duplicates_elem|].
  split; [apply drop_duplicates_sublist|].
  split; [|done].
  unfold remove_duplicates. mstep. rewrite resolve_insert_eq. mstep.
  eexists. split; [done|]. rewrite resolve_insert_eq. by rewrite drop_duplicates_twice.
Qed.



End more.
End ServerMore.

(** * Properties of the client's report *)
Module ClientSpec.
Import Pandas PandasFacts Client.

Section spec.
Context {R : Runtime}.

(** No table passes the test of the schema branch: a table whose set of
    labels is [column] and [dtype] has no label [num_rows]. *)
Lemma is_schema_result_false (df : DataFrame) : is_schema_result df = false.
Proof.
  unfold is_schema_result. apply andb_false_iff.
  destruct (decide ((list_to_set (columns df) : gset string) = {["column"; "dtype"]}))
    as [Heq|Hne].
  - right. unfold has_column. apply bool_decide_eq_false_2. intros Hin.
    assert ("num_rows" ∈ (list_to_set (columns df) : gset string)) as Hs
      by (by apply elem_of_list_to_set).
    rewrite Heq in Hs. apply elem_of_union in Hs as [Hs|Hs];
      apply elem_of_singleton in Hs; discriminate.
  - left. by apply bool_decide_eq_false_2.
Qed.

(** X11. The client never prints the schema layout and never reports that
    a table could not be loaded: whatever the database holds and whatever
    the agent answers, the report is one of the other four. (The test for a
    schema result asks for the labels to be exactly [column] and [dtype]
    and for [num_rows] to be a label as well; a handle that exists has a
    row to load.) *)
Theorem schema_branch_is_dead (db : gmap string blob) (res : answer) (o : shown) :
  report_result db res = inr o →
  (∀ n cs, o ≠ Schema n cs) ∧ o ≠ Could_not_load.
Proof.
  unfold report_result. destruct (ans_error res); [done|].
  intros [= <-]. destruct (ans_handle res) as [h|]; [|done].
  destruct (decide (h = "")); [done|].
  unfold handle_exists, fetch_dataframe.
  destruct (db !! h) as [b|] eqn:Hb.
  - rewrite bool_decide_eq_true_2 by eauto. cbn [negb].
    by rewrite is_schema_result_false.
  - assert (¬ is_Some (@None blob)) as Hno by (intros [? ?]; discriminate).
    rewrite (bool_decide_eq_false_2 _ Hno). done.
Qed.

(** X12. What the client shows for the handle a server call returned is
    the table the server stored under it, as plain contents: also when the
    call was [get_schema]. *)
Theorem client_shows_stored_table {laws : RuntimeLaws R}
    (c : Server.call) (w w' : Server.world) (t : string) :
  Server.run c w = (Return (Server.Handle t), w') →
  t ≠ "" →
  ∃ T, Server.resolve w' t = Some T ∧
       report_result (Server.handles w') (mkAnswer None (Some t)) = inr (Contents T).
Proof.
  intros Hrun Ht. pose proof (ServerFacts.run_shape c w) as H. rewrite Hrun in H.
  destruct H as ([df Hh] & _). exists df.
  unfold Server.resolve, report_result, handle_exists, fetch_dataframe.
  cbn [ans_error ans_handle]. rewrite Hh, lookup_insert_eq.
  cbn [fmap option_fmap option_map]. rewrite pickle_roundtrip. split; [done|].
  rewrite decide_False by done. rewrite bool_decide_eq_true_2 by eauto. cbn [negb].
  by rewrite is_schema_result_false.
Qed.

End spec.
End ClientSpec.

(** * More properties of the in-memory server *)
Module InMemoryMore.
Import Pandas PandasFacts SetitemFacts Memory MemoryFacts InMemory InMemoryFacts.

Ltac read_cases obj :=
  let df := fresh "cur" in
  let H := fresh "Hcur" in
  match goal with
  | |- context [read obj ?w] =>
      destruct (heap w !! obj) as [df|] eqn:H;
      [rewrite (read_run _ _ _ H)|rewrite (read_run_None _ _ H)]; istep
  end.

Section more.
Context {R : Runtime}.

(** every handle and every name of [sample_db] stands for an object *)
Definition objects_exist (w : world) : Prop :=
  (∀ h obj, data_handles w !! h = Some obj → is_Some (heap w !! obj)) ∧
  (∀ name obj, sample_db w !! name = Some obj → is_Some (heap w !! obj)).

(** X13. A call that answers with an error text changes nothing at all:
    no object, no handle, no token drawn.  This covers the errors pandas
    raises inside [pd.merge], which [join_dataframes] turns into a text. *)
Theorem error_leaves_world (c : call) (w : world) (m : message) :
  (run c w).1 = Return (Error m) → (run c w).2 = w.
Proof.
  destruct c; cbn [run].
  - unfold query_database. istep.
    destruct (sample_db w !! table_name) as [obj|]; istep; [|done].
    destruct (heap w !! obj) as [df|] eqn:Hobj.
    + rewrite (copy_object_run _ _ _ Hobj). istep. done.
    + by rewrite (copy_object_run_None _ _ Hobj).
  - unfold combine_columns. istep.
    destruct (data_handles w !! handle) as [obj|] eqn:Hh; istep; [|done].
    read_cases obj; [|done].
    destruct (negb _ || negb _) eqn:Hg; istep; [done|].
    destruct (getitem cur col1_name) as [a|], (getitem cur col2_name) as [b|]; istep;
      try (destruct (df_combine_repeated _ _ _ _ _) as [e|new]; istep); done.
  - unfold join_dataframes. istep.
    destruct (data_handles w !! handle1) as [obj1|]; istep; [|done].
    destruct (data_handles w !! handle2) as [obj2|]; istep; [|done].
    read_cases obj1; [|done]. read_cases obj2; [|done].
    destruct (negb _ || negb _); istep; [done|].
    case_bool_decide; istep; [done|].
    destruct (merge _ _ _ _ _) as [e|joined]; istep; [destruct (exn_ordinary e)|]; done.
  - unfold get_shape. istep.
    destruct (data_handles w !! handle) as [obj|]; istep; [|done].
    read_cases obj; done.
  - unfold get_head. istep.
    destruct (data_handles w !! handle) as [obj|]; istep; [|done].
    read_cases obj; done.
  - unfold get_top_n_rows. istep.
    destruct (data_handles w !! handle) as [obj|]; istep; [|done].
    case_decide; istep; [done|].
    read_cases obj; done.
Qed.

(** X14. No tool of the in-memory server raises: each call returns a
    handle, a text or an error text, also when pandas raises inside
    [pd.merge]. *)
Theorem never_raises (c : call) (w : world) :
  objects_exist w → ∃ r, (run c w).1 = Return r.
Proof.
  intros [Hh Hs]. destruct c; cbn [run].
  - unfold query_database. istep.
    destruct (sample_db w !! table_name) as [obj|] eqn:Hn; istep; [|eauto].
    destruct (Hs _ _ Hn) as [df Hobj].
    rewrite (copy_object_run _ _ _ Hobj). istep. eauto.
  - unfold combine_columns. istep.
    destruct (data_handles w !! handle) as [obj|] eqn:Hobj; istep; [|eauto].
    destruct (Hh _ _ Hobj) as [T HT]. rewrite (read_run _ _ _ HT). istep.
    destruct (negb _ || negb _) eqn:Hg; istep; [eauto|].
    destruct (getitem T col1_name) as [a|], (getitem T col2_name) as [b|]; istep;
      try (destruct (df_combine_repeated _ _ _ _ _) as [e|new]; istep); eauto.
  - unfold join_dataframes. istep.
    destruct (data_handles w !! handle1) as [obj1|] eqn:Ho1; istep; [|eauto].
    destruct (data_handles w !! handle2) as [obj2|] eqn:Ho2; istep; [|eauto].
    destruct (Hh _ _ Ho1) as [T1 HT1], (Hh _ _ Ho2) as [T2 HT2].
    rewrite (read_run _ _ _ HT1). istep. rewrite (read_run _ _ _ HT2). istep.
    destruct (negb _ || negb _); istep; [eauto|].
    case_bool_decide; istep; [eauto|].
    destruct (merge _ _ _ _ _) as [e|joined] eqn:Hm; istep; [|eauto].
    rewrite (MergeFacts.merge_raises_ordinary _ _ _ _ _ _ _ Hm). eauto.
  - unfold get_shape. istep.
    destruct (data_handles w !! handle) as [obj|] eqn:Hobj; istep; [|eauto].
    destruct (Hh _ _ Hobj) as [T HT]. rewrite (read_run _ _ _ HT). istep. eauto.
  - unfold get_head. istep.
    destruct (data_handles w !! handle) as [obj|] eqn:Hobj; istep; [|eauto].
    destruct (Hh _ _ Hobj) as [T HT]. rewrite (read_run _ _ _ HT). istep. eauto.
  - unfold get_top_n_rows. istep.
    destruct (data_handles w !! handle) as [obj|] eqn:Hobj; istep; [|eauto].
    case_decide; istep; [eauto|].
    destruct (Hh _ _ Hobj) as [T HT]. rewrite (read_run _ _ _ HT). istep. eauto.
Qed.

Lemma combine_columns_writes (w : world) (h c1 c2 new sep : string)
    (obj : nat) (T : DataFrame) (a b : list value) :
  data_handles w !! h = Some obj →
  heap w !! obj = Some T →
  getitem T c1 = Some a →
  getitem T c2 = Some b →
  combine_columns h c1 c2 new sep w
  = (Return (Handle h), with_written w h obj (setitem T new (str_concat a sep b))).
Proof.
  intros Hh HT Ha Hb.
  assert (has_column T c1 = true) as Hc1 by (by eapply has_column_true, getitem_elem_of).
  assert (has_column T c2 = true) as Hc2 by (by eapply has_column_true, getitem_elem_of).
  unfold combine_columns. istep. rewrite Hh. istep. rewrite (read_run _ _ _ HT). istep.
  rewrite Hc1, Hc2. cbn [negb orb]. istep. rewrite Ha, Hb. by istep.
Qed.

(** X15. [combine_columns] works in place: it returns the handle it was
    given, the handle stands for the same object as before, no object is
    made and no token drawn, and the object now holds the table with the
    combined column set. In every row the cell of that column is the text
    of the cell of [col1], the separator and the text of the cell of
    [col2]; a new label is appended as the last column, a label that
    exists is overwritten, and every other cell is as before. The table
    has no column label twice. *)
Theorem combine_columns_in_place (w : world) (h c1 c2 new sep : string)
    (obj : nat) (T : DataFrame) (i1 i2 : nat) :
  data_handles w !! h = Some obj →
  heap w !! obj = Some T →
  NoDup (columns T) →
  columns T !! i1 = Some c1 →
  columns T !! i2 = Some c2 →
  ∃ w' T',
    combine_columns h c1 c2 new sep w = (Return (Handle h), w') ∧
    data_handles w' = data_handles w ∧
    sample_db w' = sample_db w ∧
    draws w' = draws w ∧
    heap w' = <[obj := T']> (heap w) ∧
    length (heap w') = length (heap w) ∧
    resolve w' h = Some T' ∧
    (new ∉ columns T →
       columns T' = columns T ++ [new] ∧
       rows T' = (λ r, r ++ [ServerSpec.combined i1 i2 sep r]) <$> rows T) ∧
    (∀ p, columns T !! p = Some new →
       columns T' = columns T ∧
       rows T' = (λ r, <[p := ServerSpec.combined i1 i2 sep r]> r) <$> rows T).
Proof.
  intros Hh HT Hnd H1 H2. eexists. eexists. split.
  { apply (combine_columns_writes w h c1 c2 new sep obj T); try done;
      by apply getitem_at. }
  unfold with_written. cbn [data_handles sample_db draws heap].
  split; [by apply insert_id|]. repeat (split; [done|]).
  split; [by rewrite length_insert|]. split.
  { unfold resolve. cbn [data_handles heap]. rewrite lookup_insert_eq. cbn.
    apply list_lookup_insert_eq. by eapply lookup_lt_Some. }
  split.
  - intros Hnew. split; [by apply setitem_columns_new|].
    rewrite setitem_rows_new by done. apply ServerSpec.combined_column.
  - intros p Hp. split.
    + apply setitem_columns_old. by eapply list_elem_of_lookup_2.
    + rewrite (setitem_rows_at _ _ _ p) by done.
      apply (ServerSpec.combined_column T i1 i2 sep (λ r v, <[p := v]> r)).
Qed.

(** X16. After a successful [combine_columns], [get_shape] of the handle
    reports the same number of rows, and one column more when the new label
    was not a column (the same number when it was). *)
Theorem shape_after_combine (w : world) (h c1 c2 new sep : string)
    (obj : nat) (T : DataFrame) (a b : list value) :
  data_handles w !! h = Some obj →
  heap w !! obj = Some T →
  getitem T c1 = Some a →
  getitem T c2 = Some b →
  let w' := (combine_columns h c1 c2 new sep w).2 in
  (get_shape h w).1 = Return (Shape (length (rows T)) (length (columns T))) ∧
  (get_shape h w').1 =
    Return (Shape (length (rows T))
              (if decide (new ∈ columns T) then length (columns T)
               else S (length (columns T)))).
Proof.
  intros Hh HT Ha Hb w'.
  subst w'. rewrite (combine_columns_writes w h c1 c2 new sep obj T a b Hh HT Ha Hb).
  cbn [snd]. split.
  - unfold get_shape. istep. rewrite Hh. istep. rewrite (read_run _ _ _ HT). by istep.
  - unfold get_shape. istep. unfold with_written at 1. cbn [data_handles].
    rewrite lookup_insert_eq. istep.
    assert (heap (with_written w h obj (setitem T new (str_concat a sep b))) !! obj
            = Some (setitem T new (str_concat a sep b))) as HT'.
    { cbn [with_written heap]. apply list_lookup_insert_eq. by eapply lookup_lt_Some. }
    rewrite (read_run _ _ _ HT'). istep. cbn [fst]. do 2 f_equal.
    + apply setitem_length. rewrite str_concat_length;
        erewrite !getitem_length by done; done.
    + case_decide.
      * by rewrite setitem_columns_old.
      * rewrite setitem_columns_new by done. rewrite length_app. cbn. lia.
Qed.

End more.
End InMemoryMore.

(** * More properties of the generic server *)
Module GenericMore.
Import Pandas Memory MemoryFacts Generic GenericFacts GenericSpec.

Section more.
Context {R : Runtime} {I : Interpreter}.

(** ** Outputs *)

(** the dictionary after the assignments [d[alias] = handle], in order *)
Definition recorded (d : gmap string string) (entries : list (string * string))
  : gmap string string :=
  foldl (λ d p, <[p.1 := p.2]> d) d entries.

Lemma recorded_absent d entries a :
  a ∉ entries.*1 → recorded d entries !! a = d !! a.
Proof.
  revert d. induction entries as [|[a' t] es IH]; intros d Ha; [done|].
  rewrite fmap_cons, not_elem_of_cons in Ha. destruct Ha as [Hne Ha].
  cbn. fold (recorded (<[a' := t]> d) es). rewrite IH by done.
  by apply lookup_insert_ne.
Qed.

Lemma recorded_last d entries k a t :
  entries !! k = Some (a, t) →
  (∀ k' t', k < k' → entries !! k' ≠ Some (a, t')) →
  recorded d entries !! a = Some t.
Proof.
  revert d k. induction entries as [|[a' t0] es IH]; intros d k Hk Hlast; [done|].
  cbn. fold (recorded (<[a' := t0]> d) es). destruct k as [|k]; cbn in Hk.
  - injection Hk as -> ->. rewrite recorded_absent; [apply lookup_insert_eq|].
    intros ([a1 t1] & Ha1 & [k' Hk']%list_elem_of_lookup_1)%list_elem_of_fmap.
    cbn in Ha1. subst a1. apply (Hlast (S k') t1); [lia|done].
  - apply (IH _ k); [done|]. intros k' t' Hlt. apply (Hlast (S k') t'). lia.
Qed.

Lemma store_outputs_all {laws : RuntimeLaws R} outs ls acc w :
  Forall (λ a, ∃ o, ls !! a = Some (Frame o)) outs →
  ∃ w',
    store_outputs outs ls acc w
    = (Return (inr (recorded acc (zip outs (uuid4 <$> seq (draws w) (length outs))))),
       w') ∧
    draws w' = draws w + length outs ∧
    heap w' = heap w ∧
    sample_db w' = sample_db w ∧
    (∀ h, (∀ k, k < length outs → h ≠ uuid4 (draws w + k)) →
          data_handles w' !! h = data_handles w !! h) ∧
    (∀ k a o, outs !! k = Some a → ls !! a = Some (Frame o) →
              data_handles w' !! uuid4 (draws w + k) = Some o).
Proof.
  intros Hall. revert acc w. induction Hall as [|a outs [o Ha] _ IH]; intros acc w.
  - exists w. cbn. rewrite Nat.add_0_r. repeat split; try done.
  - rewrite (store_outputs_frame a outs ls acc w o Ha).
    destruct (IH (<[a := uuid4 (draws w)]> acc)
                (mkWorld (heap w) (sample_db w)
                   (<[uuid4 (draws w) := o]> (data_handles w)) (S (draws w))))
      as (w' & -> & Hd & Hh & Hs & Hold & Hnew).
    cbn [draws heap sample_db data_handles] in *.
    exists w'. split; [done|]. split; [cbn; lia|].
    split; [done|]. split; [done|]. split.
    + intros h Hne. rewrite Hold.
      * rewrite lookup_insert_ne; [done|]. intros <-.
        apply (Hne 0); [cbn; lia|]. by rewrite Nat.add_0_r.
      * intros k Hk. replace (S (draws w) + k) with (draws w + S k) by lia.
        apply Hne. cbn. lia.
    + intros [|k] a' o' Hk Ha'; cbn in Hk.
      * injection Hk as <-. rewrite Ha in Ha'. injection Ha' as <-.
        rewrite Nat.add_0_r, Hold; [apply lookup_insert_eq|].
        intros k _ Heq%uuid4_inj. lia.
      * replace (draws w + S k) with (S (draws w) + k) by lia. eauto.
Qed.

Lemma zip_tokens_lookup `{!Runtime} (outs : list string) d k a :
  outs !! k = Some a →
  zip outs (uuid4 <$> seq d (length outs)) !! k = Some (a, uuid4 (d + k)).
Proof.
  intros Hk. apply lookup_zip_with_Some. exists a, (uuid4 (d + k)).
  split; [done|]. split; [done|]. rewrite list_lookup_fmap, lookup_seq_lt; [done|].
  by eapply lookup_lt_Some.
Qed.

(** X17. When every input handle is bound and the code leaves a DataFrame
    in every output alias, [execute_pandas_code] returns the dictionary
    from output alias to new handle. A new handle is made for each entry of
    the list of aliases, in order: the tokens of the next draws, each bound
    to the object its alias stands for. The dictionary has the aliases as
    its keys and, for an alias, the handle made at its last place in the
    list. Handles that are none of the new tokens are bound as before. *)
Theorem execute_returns_a_handle_per_output {laws : RuntimeLaws R}
    (code : string) (ins : list (string * string)) (outs : list string)
    (w w1 : world) (ls ls' : gmap string pyval) (hp : list DataFrame) :
  load_inputs ins ∅ w = (Return (inr ls), w1) →
  exec code (heap w1) ls = (inr ls', hp) →
  Forall (λ a, ∃ o, ls' !! a = Some (Frame o)) outs →
  ∃ w' D,
    execute_pandas_code code ins outs w = (Return (inr D), w') ∧
    (∀ k a, outs !! k = Some a → (∀ k', k < k' → outs !! k' ≠ Some a) →
            D !! a = Some (uuid4 (draws w + k))) ∧
    (∀ a, a ∉ outs → D !! a = None) ∧
    heap w' = hp ∧
    draws w' = draws w + length outs ∧
    (∀ k a o, outs !! k = Some a → ls' !! a = Some (Frame o) →
              data_handles w' !! uuid4 (draws w + k) = Some o) ∧
    (∀ h, (∀ k, k < length outs → h ≠ uuid4 (draws w + k)) →
          data_handles w' !! h = data_handles w !! h).
Proof.
  intros Hload Hexec Hall.
  destruct (load_inputs_spec ins ∅ w) as (extra & _ & _ & Hd & Hn & _).
  rewrite Hload in Hd, Hn. cbn [snd] in Hd, Hn.
  unfold execute_pandas_code. rewrite bind_run, Hload. cbv beta iota.
  rewrite bind_run, try_except_run, bind_run. unfold run_code. rewrite Hexec. gstep.
  destruct (store_outputs_all outs ls' ∅
              (mkWorld hp (sample_db w1) (data_handles w1) (draws w1)) Hall)
    as (w' & -> & Hd' & Hh' & _ & Hold & Hnew).
  cbn [draws heap data_handles app] in *. rewrite Hn, Hd in *.
  exists w'. eexists. split; [done|]. split; [|split; [|eauto 10]].
  - intros k a Hk Hlast. apply (recorded_last _ _ k).
    + by apply zip_tokens_lookup.
    + intros k' t' Hlt Hk'. apply lookup_zip_with_Some in Hk' as (a' & t'' & [= <- <-] & Ha' & _).
      by apply (Hlast k').
  - intros a Ha. rewrite recorded_absent; [apply lookup_empty|].
    rewrite fst_zip; [done|]. by rewrite length_fmap, length_seq.
Qed.

(** ** Inputs *)

Lemma load_inputs_stops pre alias h rest ls w :
  Forall (λ p, ∃ obj, data_handles w !! p.2 = Some obj ∧ is_Some (heap w !! obj)) pre →
  data_handles w !! h = None →
  ∃ w' extra,
    load_inputs (pre ++ (alias, h) :: rest) ls w
    = (Return (inl (Input_handle_not_found h alias)), w') ∧
    data_handles w' = data_handles w ∧ draws w' = draws w ∧
    sample_db w' = sample_db w ∧
    heap w' = heap w ++ extra ∧
    Forall2 (λ p T, resolve w p.2 = Some T) pre extra.
Proof.
  intros Hpre. revert ls w Hpre.
  induction pre as [|[a0 h0] pre IH]; intros ls w Hpre Hh.
  - exists w, []. cbn [app load_inputs]. gstep. rewrite Hh. gstep.
    rewrite app_nil_r. repeat split; try done.
  - apply Forall_cons in Hpre as [(obj & Ho & [T HT]) Hpre]. cbn [snd] in Ho.
    cbn [app load_inputs]. gstep. rewrite Ho. gstep.
    rewrite (copy_object_run _ _ _ HT). gstep.
    destruct (IH (<[a0 := Frame (length (heap w))]> ls)
                (mkWorld (heap w ++ [T]) (sample_db w) (data_handles w) (draws w)))
      as (w' & extra & -> & Hd & Hn & Hs & Hheap & Hcopies).
    { cbn [data_handles heap]. eapply Forall_impl; [exact Hpre|].
      intros p (o & Hp & [T' HT']). exists o. split; [done|].
      exists T'. by apply lookup_app_l_Some. }
    { done. }
    cbn [data_handles heap sample_db draws] in *.
    exists w', (T :: extra). split; [done|]. repeat (split; [done|]).
    split; [by rewrite Hheap, <-app_assoc|].
    constructor.
    + unfold resolve. cbn [snd]. by rewrite Ho.
    + apply Forall2_same_length_lookup.
      split; [by eapply Forall2_length|]. intros i p T' Hp HT'.
      pose proof (Forall2_lookup_lr _ _ _ _ _ _ Hcopies Hp HT') as Hres.
      destruct (Forall_lookup_1 _ _ _ _ Hpre Hp) as (o & Hpo & [T'' HT'']).
      unfold resolve in *. cbn [data_handles heap] in Hres.
      rewrite Hpo in *. cbn in *.
      rewrite (lookup_app_l_Some _ _ _ _ HT'') in Hres. congruence.
Qed.

(** X18. When an input handle is not bound, [execute_pandas_code] returns
    the error that names the first such handle and its alias.  The code is
    not run and no output is stored: the handles and the tokens drawn are
    as before, and the only new objects are the copies of the inputs
    listed before the unknown one. *)
Theorem unknown_input_handle (code : string) (pre rest : list (string * string))
    (alias h : string) (outs : list string) (w : world) :
  Forall (λ p, ∃ obj, data_handles w !! p.2 = Some obj ∧ is_Some (heap w !! obj)) pre →
  data_handles w !! h = None →
  ∃ w' extra,
    execute_pandas_code code (pre ++ (alias, h) :: rest) outs w
    = (Return (inl (Input_handle_not_found h alias)), w') ∧
    data_handles w' = data_handles w ∧ draws w' = draws w ∧
    sample_db w' = sample_db w ∧
    heap w' = heap w ++ extra ∧
    Forall2 (λ p T, resolve w p.2 = Some T) pre extra.
Proof.
  intros Hpre Hh.
  destruct (load_inputs_stops pre alias h rest ∅ w Hpre Hh)
    as (w' & extra & Hload & Hrest).
  exists w', extra. split; [|exact Hrest].
  unfold execute_pandas_code. rewrite bind_run, Hload. by gstep.
Qed.

(** X19. When the code raises an exception of a class that derives from
    [Exception], [execute_pandas_code] returns the code-execution error
    with the exception; any other exception ([SystemExit],
    [KeyboardInterrupt]) leaves the tool as it is. Either way no handle is
    made and no token drawn, whatever the outputs asked for. *)
Theorem raising_code_stores_nothing (code : string) (ins : list (string * string))
    (outs : list string) (w w1 : world) (ls : gmap string pyval)
    (e : exn) (hp : list DataFrame) :
  load_inputs ins ∅ w = (Return (inr ls), w1) →
  exec code (heap w1) ls = (inl e, hp) →
  ∃ w',
    execute_pandas_code code ins outs w
    = (if exn_ordinary e then Return (inl (Code_execution_error e)) else Raise e, w') ∧
    data_handles w' = data_handles w ∧ draws w' = draws w ∧
    sample_db w' = sample_db w ∧ heap w' = hp.
Proof.
  intros Hload Hexec.
  destruct (load_inputs_spec ins ∅ w) as (extra & _ & Hs & Hd & Hn & _).
  rewrite Hload in Hs, Hd, Hn. cbn [snd] in Hs, Hd, Hn.
  unfold execute_pandas_code. rewrite bind_run, Hload. cbv beta iota.
  rewrite bind_run, try_except_run, bind_run. unfold run_code. rewrite Hexec. gstep.
  destruct (exn_ordinary e); gstep; (eexists; split; [done|]); cbn; eauto.
Qed.

(** ** Materializing *)

(** X20. [materialize_dataframe] only reads: for a bound handle it always
    returns, a text or an error text (an exception of [sample] included),
    and the world after the call is the world before; for an unbound handle
    it returns the handle-not-found error. *)
Theorem materialize_only_reads (h format : string) (n : count) (w : world) :
  (∀ obj df, data_handles w !! h = Some obj → heap w !! obj = Some df →
     ∃ r, materialize_dataframe h format n w = (Return r, w)) ∧
  (data_handles w !! h = None →
     materialize_dataframe h format n w = (Return (inl (Handle_not_found h)), w)).
Proof.
  split.
  - intros obj df Hh Hobj. unfold materialize_dataframe. gstep. rewrite Hh. gstep.
    rewrite (read_run _ _ _ Hobj). gstep.
    repeat (case_decide; gstep; eauto).
    + destruct (df_sample _ _); gstep; eauto.
    + case_bool_decide; gstep; eauto.
  - intros Hh. unfold materialize_dataframe. gstep. rewrite Hh. by gstep.
Qed.

(** X21. The formats [json_split] and [csv] show the whole table
    whatever [n] is, and so does [json_records] for a table without a
    repeated column label: neither [n] nor the limit of 1000 rows applies
    to them. For a table with a repeated label [json_records] is answered
    with the materializing error. *)
Theorem whole_table_formats (h format : string) (n : count) (w : world)
    (obj : nat) (df : DataFrame) :
  data_handles w !! h = Some obj →
  heap w !! obj = Some df →
  (format ∈ ["json_split"; "csv"] ∨ format = "json_records" ∧ NoDup (columns df) →
   ∃ r, materialize_dataframe h format n w = (Return (inr r), w) ∧ rendered r = df) ∧
  (¬ NoDup (columns df) →
   ∃ e, materialize_dataframe h "json_records" n w
        = (Return (inl (Materializing_error h "json_records" e)), w)).
Proof.
  intros Hh Hobj. split.
  - intros Hf. unfold materialize_dataframe. gstep. rewrite Hh. gstep.
    rewrite (read_run _ _ _ Hobj). gstep.
    destruct Hf as [Hf|[-> Hnd]].
    + repeat (apply elem_of_cons in Hf as [->|Hf]); [..|by apply elem_of_nil in Hf];
        repeat (rewrite decide_False by discriminate); rewrite decide_True by done;
        gstep; eauto.
    + repeat (rewrite decide_False by discriminate). rewrite decide_True by done.
      rewrite bool_decide_eq_true_2 by done. gstep. eauto.
  - intros Hdup. unfold materialize_dataframe. gstep. rewrite Hh. gstep.
    rewrite (read_run _ _ _ Hobj). gstep.
    repeat (rewrite decide_False by discriminate). rewrite decide_True by done.
    rewrite bool_decide_eq_false_2 by done. gstep. eauto.
Qed.

Lemma tail_len df n : (0 < n)%Z → len (tail df n) = Z.min n (len df).
Proof.
  intros Hn. unfold tail, len. rewrite decide_True by done. cbn [rows].
  rewrite length_skipn. lia.
Qed.

(** X22. [head_string] and [tail_string] show [min(n, len(df))] rows, [n]
    being 5 when the argument is not a positive integer. *)
Theorem previews_show_n_rows (h : string) (n : count) (w : world)
    (obj : nat) (df : DataFrame) :
  data_handles w !! h = Some obj →
  heap w !! obj = Some df →
  (∃ shown, materialize_dataframe h "head_string" n w
            = (Return (inr (To_string shown)), w) ∧
            len shown = Z.min (default_n n) (len df)) ∧
  (∃ shown, materialize_dataframe h "tail_string" n w
            = (Return (inr (To_string shown)), w) ∧
            len shown = Z.min (default_n n) (len df)).
Proof.
  intros Hh Hobj.
  assert (0 < default_n n)%Z as Hn.
  { destruct n as [n|]; cbn [default_n]; [case_decide|]; lia. }
  split; unfold materialize_dataframe; gstep; rewrite Hh; gstep;
    rewrite (read_run _ _ _ Hobj); gstep.
  - rewrite (decide_True (P := "head_string" = "head_string")) by done. gstep.
    eexists. split; [done|]. apply head_len. lia.
  - rewrite (decide_False (P := "tail_string" = "head_string")) by discriminate.
    rewrite (decide_True (P := "tail_string" = "tail_string")) by done. gstep.
    eexists. split; [done|]. by apply tail_len.
Qed.

End more.
End GenericMore.

(** * The store on a concrete runtime *)
Module Demo.
Import Pandas Server.

#[local] Existing Instance demo_runtime.

Definition users : DataFrame := default (mkDF [] []) (lookup_table sample_db "users").

(** the world after [query_database("users")] in a new process *)
Definition w0 : world := mkWorld ∅ [] 0.
Definition w1 : world := mkWorld {["0" := users]} [] 1.



End Demo.

Lemma save_then_load_witness :
  (Server.load_handle (R := demo_runtime) "h" (Server.save_handle "h" Demo.users Demo.w0).2).1
  = Return (Some Demo.users).
Proof.
  apply (ServerSpec.save_then_load (R := demo_runtime) (RuntimeLaws0 := demo_runtime_laws)
           "h" Demo.users Demo.w0).
Defined.

Lemma handles_are_immortal_witness :
  is_Some (Server.resolve (R := demo_runtime)
             (Server.run_all
                [Server.Combine_columns "0" "name" "city" "label" " ";
                 Server.Select_columns "0" ["label"];
                 Server.Query_database "orders"] Demo.w1) "0").
Proof.
  apply (proj2 (ServerSpec.handles_are_immortal (R := demo_runtime))).
  vm_compute. eauto.
Defined.


Lemma join_kind_unchecked_witness :
  ∃ e w', Server.join_dataframes (R := demo_runtime) "0" "0" "user_id" "sideways" Demo.w1
          = (Raise e, w') ∧
          Server.handles w' = Server.handles Demo.w1.
Proof.
  apply (ServerSpec.join_kind_unchecked (R := demo_runtime)
           Demo.w1 "0" "0" "user_id" "sideways" Demo.users Demo.users).
  - reflexivity.
  - reflexivity.
  - vm_compute. repeat constructor.
  - vm_compute. repeat constructor.
  - intros H. repeat (apply elem_of_cons in H as [H|H]; [discriminate|]).
    by apply elem_of_nil in H.
Defined.

(** C3, as the specification words it: the error lists every missing
    column. [group_by], given a group column and an aggregation column
    that the table both lacks, names the group column only. *)
Lemma group_by_names_one_list :
  ∃ m w',
    Server.run (R := demo_runtime) (Server.Group_by "0" ["nope"] [("gone", "sum")]) Demo.w1
    = (Return (Server.Error m), w') ∧
    "gone" ∈ Server.missing_from Demo.users
               (ServerSpec.referenced (Server.Group_by "0" ["nope"] [("gone", "sum")])) ∧
    "gone" ∉ ServerSpec.named m.
Proof.
  eexists _, _. split; [vm_compute; reflexivity|].
  split; apply (bool_decide_unpack _); vm_compute; exact I.
Qed.

Lemma column_validation_witness :
  ∃ m w', Server.run (R := demo_runtime) (Server.Select_columns "0" ["nope"; "name"; "no"])
            Demo.w1 = (Return (Server.Error m), w') ∧
          Server.handles w' = Server.handles Demo.w1 ∧
          ServerSpec.named m = ["nope"; "no"].
Proof.
  destruct (proj1 (ServerSpec.column_validation (R := demo_runtime))
              (Server.Select_columns "0" ["nope"; "name"; "no"]) Demo.w1 "0" Demo.users)
    as (m & w' & Hrun & Hh & _ & Hn); [reflexivity|reflexivity|by vm_compute|].
  exists m, w'. split; [exact Hrun|]. split; [exact Hh|].
  rewrite Hn. vm_compute. reflexivity.
Defined.

(** C6, as the specification words it: the rows [distinct_rows] keeps
    have every column of the input. They have the listed columns only. *)
Lemma distinct_rows_drops_columns :
  ¬ (∀ T t w',
       Server.resolve (R := demo_runtime) Demo.w1 "0" = Some T →
       Server.distinct_rows "0" (Some ["city"]) Demo.w1 = (Return (Server.Handle t), w') →
       ∃ T', Server.resolve w' t = Some T' ∧ Pandas.columns T' = Pandas.columns T).
Proof.
  intros H.
  destruct (H Demo.users "1" (Server.distinct_rows "0" (Some ["city"]) Demo.w1).2)
    as (T' & HT' & Hcols); [reflexivity|by vm_compute|].
  vm_compute in HT'. injection HT' as <-. vm_compute in Hcols. discriminate.
Qed.

Lemma distinct_rows_projects_witness :
  ∃ w', Server.distinct_rows (R := demo_runtime) "0" (Some ["city"]) Demo.w1
        = (Return (Server.Handle "1"), w') ∧
        Server.resolve w' "1"
        = Some (Pandas.mkDF ["city"]
                  [[Pandas.VStr "New York"]; [Pandas.VStr "London"];
                   [Pandas.VStr "Paris"]; [Pandas.VStr "Tokyo"]]).
Proof.
  destruct (ServerSpec.distinct_rows_projects (R := demo_runtime)
              (RuntimeLaws0 := demo_runtime_laws) Demo.w1 "0" Demo.users ["city"])
    as (P & w' & HP & _ & _ & Hrun & Hres);
    [reflexivity|done|vm_compute; repeat constructor|].
  exists w'. split; [exact Hrun|].
  vm_compute in HP. injection HP as <-. exact Hres.
Defined.

(** ** Tables to join *)
Module JoinDemo.
Import Pandas Server.
#[local] Existing Instance demo_runtime.


(** a left table with two keys and a right table that has the first *)
Definition L : DataFrame := mkDF ["id"; "n"] [[VInt 1; VInt 10]; [VInt 2; VInt 20]].
Definition Rt : DataFrame :=
  mkDF ["id"; "label"; "amount"] [[VInt 1; VStr "a"; VInt 1200]].


End JoinDemo.



(** ** The generic server on a concrete interpreter *)
Module GenericDemo.
Import Pandas Memory MemoryFacts Generic.
#[local] Existing Instance demo_runtime.

(** The interpreter runs one program whatever the text:
    [df["seen"] = True; result = df]. It writes into the object its local
    variable [df] stands for. *)
Definition demo_interpreter : Interpreter := {|
  exec := λ code hp ls,
    match ls !! "df" with
    | Some (Frame obj) =>
        (inr (<["result" := Frame obj]> ls),
         alter (λ T, setitem T "seen" (replicate (length (rows T)) (VBool true))) obj hp)
    | _ => (inl (Exception "NameError" "name 'df' is not defined"), hp)
    end;
  df_sample := λ df k, inr (head df k);
|}.


(** the world after [query_database("users")] in a new process *)
Definition w1 : world :=
  mkWorld [users; orders; users] (sample_db initial) {["0" := 2]} 1.


(** a table of 1001 rows under the handle [big] *)
Definition w_big : world :=
  mkWorld [mkDF ["x"] (replicate 1001 [VInt 0])] ∅ {["big" := 0]} 0.

End GenericDemo.

Lemma failed_outputs_leave_a_handle_witness :
  ∃ m w',
    Generic.execute_pandas_code (R := demo_runtime) (I := GenericDemo.demo_interpreter)
      "df['seen'] = True; result = df" [("df", "0")] ["result"; "summary"] GenericDemo.w1
    = (Return (inl m), w') ∧
    Memory.data_handles w' ≠ Memory.data_handles GenericDemo.w1.
Proof.
  destruct (GenericSpec.failed_outputs_leave_a_handle
              (R := demo_runtime) (I := GenericDemo.demo_interpreter)
              "df['seen'] = True; result = df" [("df", "0")] "result" "summary"
              GenericDemo.w1
              (Memory.mkWorld
                 [Memory.users; Memory.orders; Memory.users; Memory.users]
                 (Memory.sample_db Memory.initial) {["0" := 2]} 1)
              {["df" := Generic.Frame 3]}
              (<["result" := Generic.Frame 3]> {["df" := Generic.Frame 3]})
              (alter (λ T, Pandas.setitem T "seen"
                             (replicate (length (Pandas.rows T)) (Pandas.VBool true)))
                 3 [Memory.users; Memory.orders; Memory.users; Memory.users])
              3)
    as (m & w' & Hrun & _ & _ & Hne).
  - vm_compute. reflexivity.
  - vm_compute. reflexivity.
  - vm_compute. reflexivity.
  - intros o H. vm_compute in H. discriminate.
  - vm_compute. reflexivity.
  - exists m, w'. split; [exact Hrun|exact Hne].
Defined.

Lemma head_string_is_not_capped_witness :
  ∃ shown,
    Generic.materialize_dataframe (I := GenericDemo.demo_interpreter)
      "big" "head_string" (Generic.Int 2000) GenericDemo.w_big
    = (Return (inr (Generic.To_string shown)), GenericDemo.w_big) ∧
    Pandas.len shown = 1001%Z.
Proof.
  destruct (GenericSpec.head_string_is_not_capped
              (I := GenericDemo.demo_interpreter)
              "big" 2000 GenericDemo.w_big 0
              (Pandas.mkDF ["x"] (replicate 1001 [Pandas.VInt 0])))
    as (shown & Hrun & Hlen & _).
  - reflexivity.
  - reflexivity.
  - reflexivity.
  - vm_compute. reflexivity.
  - exists shown. split; [exact Hrun|]. rewrite Hlen. vm_compute. reflexivity.
Defined.


(** ** Further runs on the concrete runtime *)

Lemma unknown_handle_is_an_error_witness :
  ∃ m, (Server.run (R := demo_runtime) (Server.Select_columns "nope" ["name"]) Demo.w1).1
       = Return (Server.Error m) ∧
       Server.handles (Server.run (Server.Select_columns "nope" ["name"]) Demo.w1).2
       = Server.handles Demo.w1.
Proof.
  apply (ServerSpec.unknown_handle_is_an_error (R := demo_runtime)
           (Server.Select_columns "nope" ["name"]) Demo.w1 "nope").
  - vm_compute. constructor.
  - vm_compute. reflexivity.
Defined.

Lemma save_handle_last_write_wins_witness :
  Server.resolve (R := demo_runtime)
    (Server.save_handle "h" JoinDemo.Rt (Server.save_handle "h" JoinDemo.L Demo.w1).2).2 "h"
  = Some JoinDemo.Rt.
Proof.
  destruct (ServerMore.save_handle_last_write_wins (R := demo_runtime)
              (laws := demo_runtime_laws) "h" JoinDemo.L JoinDemo.Rt Demo.w1) as [H _].
  exact H.
Defined.

Lemma minted_tokens_differ_witness :
  NoDup (ServerMore.minted
           (Server.answers (R := demo_runtime)
              [Server.Query_database "users"; Server.Query_database "orders";
               Server.Combine_columns "0" "name" "city" "label" " ";
               Server.Select_columns "0" ["label"]] Demo.w0)).
Proof.
  apply (ServerMore.minted_tokens_differ (R := demo_runtime) (laws := demo_runtime_laws)).
Defined.

Lemma query_database_known_tables_witness :
  ∃ T w',
    Server.query_database (R := demo_runtime) "orders" Demo.w1
    = (Return (Server.Handle "1"), w') ∧
    Server.resolve w' "1" = Some T ∧ length (Pandas.rows T) = 6.
Proof.
  destruct (ServerMore.query_database_known_tables (R := demo_runtime)
              (laws := demo_runtime_laws) "orders" Demo.w1) as [Hknown _].
  destruct Hknown as (T & w' & HT & Hrun & Hres).
  - vm_compute. repeat constructor.
  - exists T, w'. split; [exact Hrun|]. split; [exact Hres|].
    vm_compute in HT. injection HT as <-. reflexivity.
Defined.

Lemma select_columns_projects_witness :
  ∃ P w',
    Server.select_columns (R := demo_runtime) "0" ["city"; "name"] Demo.w1
    = (Return (Server.Handle "1"), w') ∧
    Server.resolve w' "1" = Some P ∧
    Pandas.columns P = ["city"; "name"] ∧ length (Pandas.rows P) = 6.
Proof.
  destruct (ServerMore.select_columns_projects (R := demo_runtime)
              (laws := demo_runtime_laws) Demo.w1 "0" Demo.users ["city"; "name"])
    as (P & w' & Hrun & Hres & Hlen & Hunique & _).
  - reflexivity.
  - vm_compute. repeat constructor.
  - exists P, w'. split; [exact Hrun|]. split; [exact Hres|]. split.
    + apply Hunique. apply (bool_decide_unpack _). vm_compute. exact I.
    + rewrite Hlen. reflexivity.
Defined.

Lemma drop_columns_ignores_unknown_witness :
  ∃ D w',
    Server.drop_columns (R := demo_runtime) "0" ["name"; "absent"] Demo.w1
    = (Return (Server.Handle "1"), w') ∧
    Server.resolve w' "1" = Some D ∧
    Pandas.columns D = ["user_id"; "city"] ∧
    length (Pandas.rows D) = 6 ∧
    ∃ i' r', Pandas.columns D !! i' = Some "city" ∧
             Pandas.rows D !! 0 = Some r' ∧ Pandas.cell r' i' = Pandas.VStr "New York".
Proof.
  destruct (ServerMore.drop_columns_ignores_unknown (R := demo_runtime)
              (laws := demo_runtime_laws) Demo.w1 "0" Demo.users ["name"; "absent"])
    as (D & w' & Hrun & Hres & Hcols & Hlen & Hkept & _).
  - reflexivity.
  - exists D, w'. split; [exact Hrun|]. split; [exact Hres|].
    split; [rewrite Hcols; vm_compute; reflexivity|].
    split; [rewrite Hlen; reflexivity|].
    destruct (Hkept ltac:(apply (bool_decide_unpack _); vm_compute; exact I) 2 "city")
      as (i' & Hi' & Hcell);
      [reflexivity|apply (bool_decide_unpack _); vm_compute; exact I|].
    destruct (Hcell 0 [Pandas.VInt 1; Pandas.VStr "Alice"; Pandas.VStr "New York"])
      as (r' & Hr' & Hc); [reflexivity|].
    exists i', r'. split; [exact Hi'|]. split; [exact Hr'|exact Hc].
Defined.

Lemma remove_duplicates_keeps_each_row_once_witness :
  ∃ D w',
    Server.remove_duplicates (R := demo_runtime) "0" Demo.w1
    = (Return (Server.Handle "1"), w') ∧
    Server.resolve w' "1" = Some D ∧ NoDup (Pandas.rows D).
Proof.
  destruct (ServerMore.remove_duplicates_keeps_each_row_once (R := demo_runtime)
              (laws := demo_runtime_laws) Demo.w1 "0" Demo.users)
    as (D & w' & Hrun & Hres & _ & Hnd & _).
  - reflexivity.
  - exists D, w'. split; [exact Hrun|]. split; [exact Hres|]. apply Hnd. discriminate.
Defined.



Lemma schema_branch_is_dead_witness :
  Client.report_result (R := demo_runtime) (Server.handles Demo.w1)
    (Client.mkAnswer None (Some "0"))
  = inr (Client.Contents Demo.users) ∧
  (∀ n cs, Client.Contents Demo.users ≠ Client.Schema n cs) ∧
  Client.Contents Demo.users ≠ Client.Could_not_load.
Proof.
  split; [vm_compute; reflexivity|].
  apply (ClientSpec.schema_branch_is_dead (R := demo_runtime)
           (Server.handles Demo.w1) (Client.mkAnswer None (Some "0"))
           (Client.Contents Demo.users)).
  vm_compute. reflexivity.
Defined.

Lemma client_shows_stored_table_witness :
  ∃ T,
    Client.report_result (R := demo_runtime)
      (Server.handles (Server.run (Server.Get_schema "0") Demo.w1).2)
      (Client.mkAnswer None (Some "1"))
    = inr (Client.Contents T) ∧
    Pandas.columns T = ["column"; "dtype"; "num_rows"].
Proof.
  destruct (ClientSpec.client_shows_stored_table (R := demo_runtime)
              (laws := demo_runtime_laws) (Server.Get_schema "0") Demo.w1
              (Server.run (Server.Get_schema "0") Demo.w1).2 "1")
    as (T & HT & Hshow).
  - vm_compute. reflexivity.
  - discriminate.
  - exists T. split; [exact Hshow|].
    vm_compute in HT. injection HT as <-. reflexivity.
Defined.

Lemma error_leaves_world_witness :
  (InMemory.run (R := demo_runtime)
     (InMemory.Join_dataframes "0" "0" "user_id" "sideways") GenericDemo.w1).2
  = GenericDemo.w1.
Proof.
  apply (InMemoryMore.error_leaves_world (R := demo_runtime)
           (InMemory.Join_dataframes "0" "0" "user_id" "sideways") GenericDemo.w1
           (InMemory.Invalid_join_type "sideways" InMemory.valid_joins)).
  vm_compute. reflexivity.
Defined.

Lemma demo_objects_exist : InMemoryMore.objects_exist GenericDemo.w1.
Proof.
  split; cbn.
  - intros h obj [_ <-]%lookup_singleton_Some. by eexists.
  - intros name obj H. rewrite lookup_insert in H. case_decide.
    + injection H as <-. by eexists.
    + apply lookup_singleton_Some in H as [_ <-]. by eexists.
Defined.

Lemma never_raises_witness :
  ∃ r, (InMemory.run (R := demo_runtime)
          (InMemory.Join_dataframes "0" "0" "name" "inner") GenericDemo.w1).1 = Return r.
Proof.
  apply (InMemoryMore.never_raises (R := demo_runtime)
           (InMemory.Join_dataframes "0" "0" "name" "inner") GenericDemo.w1).
  exact demo_objects_exist.
Defined.

Lemma combine_columns_in_place_witness :
  ∃ w' T',
    InMemory.combine_columns (R := demo_runtime) "0" "name" "city" "label" " "
      GenericDemo.w1
    = (Return (InMemory.Handle "0"), w') ∧
    Memory.data_handles w' = Memory.data_handles GenericDemo.w1 ∧
    length (Memory.heap w') = 3 ∧
    Memory.resolve w' "0" = Some T' ∧
    Pandas.rows T' !! 0
    = Some [Pandas.VInt 1; Pandas.VStr "Alice"; Pandas.VStr "New York";
            Pandas.VStr "Alice New York"].
Proof.
  destruct (InMemoryMore.combine_columns_in_place (R := demo_runtime) GenericDemo.w1
              "0" "name" "city" "label" " " 2 Memory.users 1 2)
    as (w' & T' & Hrun & Hd & _ & _ & _ & Hlen & Hres & Hnew & _);
    try reflexivity; try (apply (bool_decide_unpack _); vm_compute; exact I).
  exists w', T'. split; [exact Hrun|]. split; [exact Hd|].
  split; [rewrite Hlen; reflexivity|]. split; [exact Hres|].
  destruct Hnew as [_ ->]; [apply (bool_decide_unpack _); vm_compute; exact I|].
  vm_compute. reflexivity.
Defined.

Lemma shape_after_combine_witness :
  (InMemory.get_shape "0"
     (InMemory.combine_columns (R := demo_runtime) "0" "name" "city" "label" " "
        GenericDemo.w1).2).1
  = Return (InMemory.Shape 5 4).
Proof.
  destruct (InMemoryMore.shape_after_combine (R := demo_runtime) GenericDemo.w1
              "0" "name" "city" "label" " " 2 Memory.users
              (default [] (Pandas.getitem Memory.users "name"))
              (default [] (Pandas.getitem Memory.users "city")))
    as [_ Hafter]; [reflexivity..|].
  exact Hafter.
Defined.

Lemma get_top_n_rows_capped_witness :
  ∃ shown,
    InMemory.get_top_n_rows "big" 5000 GenericDemo.w_big
    = (Return (InMemory.To_string shown), GenericDemo.w_big) ∧
    Pandas.len shown = 1000%Z.
Proof.
  destruct (InMemorySpec.get_top_n_rows_capped GenericDemo.w_big "big" 5000 0
              (Pandas.mkDF ["x"] (replicate 1001 [Pandas.VInt 0])))
    as [_ Hpos]; [reflexivity..|].
  destruct Hpos as (shown & Hrun & Hlen); [reflexivity|].
  exists shown. split; [exact Hrun|]. rewrite Hlen. vm_compute. reflexivity.
Defined.

Lemma join_kind_checked_witness :
  InMemory.join_dataframes (R := demo_runtime) "0" "0" "user_id" "sideways" GenericDemo.w1
  = (Return (InMemory.Error (InMemory.Invalid_join_type "sideways" InMemory.valid_joins)),
     GenericDemo.w1).
Proof.
  apply (InMemorySpec.join_kind_checked (R := demo_runtime) GenericDemo.w1
           "0" "0" "user_id" "sideways" 2 2 Memory.users Memory.users);
    try reflexivity.
  - vm_compute. repeat constructor.
  - vm_compute. repeat constructor.
  - intros H. repeat (apply elem_of_cons in H as [H|H]; [discriminate|]).
    by apply elem_of_nil in H.
Defined.

Lemma execute_returns_a_handle_per_output_witness :
  ∃ w' D,
    Generic.execute_pandas_code (R := demo_runtime) (I := GenericDemo.demo_interpreter)
      "df['seen'] = True; result = df" [("df", "0")] ["result"; "df"; "result"]
      GenericDemo.w1
    = (Return (inr D), w') ∧
    D !! "result" = Some "3" ∧ D !! "df" = Some "2" ∧ D !! "other" = None ∧
    Memory.data_handles w' !! "1" = Some 3 ∧
    Memory.data_handles w' !! "2" = Some 3 ∧
    Memory.data_handles w' !! "3" = Some 3.
Proof.
  destruct (GenericMore.execute_returns_a_handle_per_output
              (R := demo_runtime) (I := GenericDemo.demo_interpreter)
              (laws := demo_runtime_laws)
              "df['seen'] = True; result = df" [("df", "0")] ["result"; "df"; "result"]
              GenericDemo.w1
              (Memory.mkWorld
                 [Memory.users; Memory.orders; Memory.users; Memory.users]
                 (Memory.sample_db Memory.initial) {["0" := 2]} 1)
              {["df" := Generic.Frame 3]}
              (<["result" := Generic.Frame 3]> {["df" := Generic.Frame 3]})
              (alter (λ T, Pandas.setitem T "seen"
                             (replicate (length (Pandas.rows T)) (Pandas.VBool true)))
                 3 [Memory.users; Memory.orders; Memory.users; Memory.users]))
    as (w' & D & Hrun & Hlast & Hnone & _ & _ & Hnew & _).
  - vm_compute. reflexivity.
  - vm_compute. reflexivity.
  - repeat constructor; exists 3; vm_compute; reflexivity.
  - exists w', D. split; [exact Hrun|]. split; [|split; [|split; [|split; [|split]]]].
    + apply (Hlast 2 "result"); [reflexivity|].
      intros [|[|[|k']]] Hlt; try lia; discriminate.
    + apply (Hlast 1 "df"); [reflexivity|].
      intros [|[|[|[|k']]]] Hlt; try lia; discriminate.
    + apply Hnone. apply (bool_decide_unpack _). vm_compute. exact I.
    + apply (Hnew 0 "result" 3); vm_compute; reflexivity.
    + apply (Hnew 1 "df" 3); vm_compute; reflexivity.
    + apply (Hnew 2 "result" 3); vm_compute; reflexivity.
Defined.

Lemma unknown_input_handle_witness :
  ∃ w',
    Generic.execute_pandas_code (R := demo_runtime) (I := GenericDemo.demo_interpreter)
      "df['seen'] = True; result = df" [("df", "0"); ("other", "nope")] ["result"]
      GenericDemo.w1
    = (Return (inl (Generic.Input_handle_not_found "nope" "other")), w') ∧
    Memory.data_handles w' = Memory.data_handles GenericDemo.w1 ∧
    Memory.heap w' = Memory.heap GenericDemo.w1 ++ [Memory.users].
Proof.
  destruct (GenericMore.unknown_input_handle
              (R := demo_runtime) (I := GenericDemo.demo_interpreter)
              "df['seen'] = True; result = df" [("df", "0")] [] "other" "nope"
              ["result"] GenericDemo.w1)
    as (w' & extra & Hrun & Hd & _ & _ & Hheap & Hcopies).
  - repeat constructor. exists 2. split; [reflexivity|by eexists].
  - reflexivity.
  - exists w'. split; [exact Hrun|]. split; [exact Hd|]. rewrite Hheap. f_equal.
    apply Forall2_cons_inv_l in Hcopies as (T & rest & HT & Hrest & ->).
    apply Forall2_nil_inv_l in Hrest as ->.
    vm_compute in HT. injection HT as <-. reflexivity.
Defined.

Lemma raising_code_stores_nothing_witness :
  ∃ e w',
    Generic.execute_pandas_code (R := demo_runtime) (I := GenericDemo.demo_interpreter)
      "df['seen'] = True; result = df" [] ["result"] GenericDemo.w1
    = (Return (inl (Generic.Code_execution_error e)), w') ∧
    Memory.data_handles w' = Memory.data_handles GenericDemo.w1.
Proof.
  destruct (GenericMore.raising_code_stores_nothing
              (R := demo_runtime) (I := GenericDemo.demo_interpreter)
              "df['seen'] = True; result = df" [] ["result"] GenericDemo.w1 GenericDemo.w1
              ∅ (Exception "NameError" "name 'df' is not defined")
              (Memory.heap GenericDemo.w1))
    as (w' & Hrun & Hd & _); [reflexivity..|].
  exists (Exception "NameError" "name 'df' is not defined"), w'.
  split; [exact Hrun|exact Hd].
Defined.

Lemma materialize_only_reads_witness :
  ∃ r, Generic.materialize_dataframe (I := GenericDemo.demo_interpreter)
         "big" "sample_string" (Generic.Int 3) GenericDemo.w_big
       = (Return r, GenericDemo.w_big).
Proof.
  destruct (GenericMore.materialize_only_reads (I := GenericDemo.demo_interpreter)
              "big" "sample_string" (Generic.Int 3) GenericDemo.w_big) as [Hbound _].
  apply (Hbound 0 (Pandas.mkDF ["x"] (replicate 1001 [Pandas.VInt 0]))); reflexivity.
Defined.

Lemma whole_table_formats_witness :
  ∃ r, Generic.materialize_dataframe (I := GenericDemo.demo_interpreter)
         "big" "json_records" (Generic.Int 3) GenericDemo.w_big
       = (Return (inr r), GenericDemo.w_big) ∧
       Pandas.len (Generic.rendered r) = 1001%Z.
Proof.
  destruct (GenericMore.whole_table_formats (I := GenericDemo.demo_interpreter)
              "big" "json_records" (Generic.Int 3) GenericDemo.w_big 0
              (Pandas.mkDF ["x"] (replicate 1001 [Pandas.VInt 0])))
    as [Hwhole _]; [reflexivity|reflexivity|].
  destruct Hwhole as (r & Hrun & Hr).
  - right. split; [reflexivity|]. apply (bool_decide_unpack _). vm_compute. exact I.
  - exists r. split; [exact Hrun|]. rewrite Hr. vm_compute. reflexivity.
Defined.

Lemma previews_show_n_rows_witness :
  ∃ shown,
    Generic.materialize_dataframe (I := GenericDemo.demo_interpreter)
      "big" "tail_string" (Generic.Int (-2)) GenericDemo.w_big
    = (Return (inr (Generic.To_string shown)), GenericDemo.w_big) ∧
    Pandas.len shown = 5%Z.
Proof.
  destruct (GenericMore.previews_show_n_rows (I := GenericDemo.demo_interpreter)
              "big" (Generic.Int (-2)) GenericDemo.w_big 0
              (Pandas.mkDF ["x"] (replicate 1001 [Pandas.VInt 0])))
    as [_ (shown & Hrun & Hlen)]; [reflexivity..|].
  exists shown. split; [exact Hrun|]. rewrite Hlen. vm_compute. reflexivity.
Defined.
